(** * ObstacleDistanceGradient: the STOMP obstacle-proximity cost function

    A shallow embedding of
    [stomp_moveit/src/cost_functions/obstacle_distance_gradient.cpp]
    and the properties of its four entry points ([configure],
    [setMotionPlanRequest], [computeCosts], [done]).

    Modelling conventions.
    - a [double] has two models.  Inside the member functions it is a
      rational [Q] with exact arithmetic: the finite values, without
      rounding ([distance_cost]).  The loop body of [computeCosts] is
      also given on [double], with NaN, the infinities and a rounding
      ([distance_cost_ieee]); what is said about the size of a cost is
      said there, and [distance_cost_ieee_exact] relates the two.
    - [std::size_t] is an integer in [0, 2^64) with the wrap-around of
      unsigned addition written out ([size_add]).
    - [Eigen::VectorXd] is a [list Q]; a coefficient write outside the
      vector is undefined behaviour ([Undefined IndexOutOfRange]).
      [Eigen::MatrixXd] is the list of its columns.  [computeCosts]
      takes the memory of its cost vector for granted;
      [computeCosts_on_heap] is the same function on a heap that may
      refuse it ([std::bad_alloc]), and [computeCosts_on_heap_granted]
      relates the two.
    - a smart pointer is an [option]; calling a member through a null
      pointer is undefined behaviour ([Undefined NullDereference]).
    - the object, together with the console it logs to and the queries it
      sends to the robot model, is the [World] threaded through a small
      state-and-exception monad [M].
    - MoveIt's robot model, robot state, planning scene and messages are
      collaborators of this file: the class [Collaborators]. *)

From Stdlib Require Import ZArith QArith Qround Lqa Lia String.
From stdpp Require Import base list strings.

Open Scope Z_scope.

(** ** Machine integers *)

Definition SIZE_BITS : Z := 64.
Definition SIZE_MODULUS : Z := 2 ^ SIZE_BITS.

(** A value of type [std::size_t]. *)
Definition is_size_t (n : Z) : Prop := 0 <= n < SIZE_MODULUS.

(** Unsigned addition: [a + b] on [std::size_t]. *)
Definition size_add (a b : Z) : Z := (a + b) mod SIZE_MODULUS.

(** ** Doubles *)

(** [a >= b] and [a < b] on [double]. *)
Definition double_ge (a b : Q) : bool := Qle_bool b a.
Definition double_lt (a b : Q) : bool := negb (Qle_bool b a).

(** ** Doubles with NaN, infinities and rounding

    The values of a [double]: not-a-number, the two infinities and the
    finite values, with the comparisons and the two operations that
    [computeCosts] uses.  The two zeros are one value.  A finite result is
    rounded by [round]; what binary64 rounding to nearest is known to do
    is [rounds_to_nearest].  Overflow of a finite result is not modelled:
    the code subtracts and divides finite values only under
    [0 <= dist < max_distance], where the results lie between 0 and
    [max_distance] and between 0 and 1. *)

Inductive double : Type :=
| NaN
| Infinity (negative : bool)
| Finite (q : Q).

(** [a >= b]: false as soon as one side is NaN. *)
Definition ieee_ge (a b : double) : bool :=
  match a, b with
  | NaN, _ | _, NaN => false
  | Infinity false, _ => true
  | Infinity true, Infinity true => true
  | Infinity true, _ => false
  | Finite _, Infinity true => true
  | Finite _, Infinity false => false
  | Finite p, Finite q => Qle_bool q p
  end.

(** [a < b]: false as soon as one side is NaN. *)
Definition ieee_lt (a b : double) : bool :=
  match a, b with
  | NaN, _ | _, NaN => false
  | Infinity true, Infinity true => false
  | Infinity true, _ => true
  | Infinity false, _ => false
  | Finite _, Infinity false => true
  | Finite _, Infinity true => false
  | Finite p, Finite q => negb (Qle_bool q p)
  end.

(** [a - b] *)
Definition ieee_sub (round : Q -> Q) (a b : double) : double :=
  match a, b with
  | NaN, _ | _, NaN => NaN
  | Infinity s, Infinity s' => if Bool.eqb s s' then NaN else Infinity s
  | Infinity s, Finite _ => Infinity s
  | Finite _, Infinity s => Infinity (negb s)
  | Finite p, Finite q => Finite (round (p - q)%Q)
  end.

(** [a / b] *)
Definition ieee_div (round : Q -> Q) (a b : double) : double :=
  match a, b with
  | NaN, _ | _, NaN => NaN
  | Infinity _, Infinity _ => NaN
  | Infinity s, Finite q => Infinity (xorb s (negb (Qle_bool 0 q)))
  | Finite _, Infinity _ => Finite 0
  | Finite p, Finite q =>
      if Qeq_bool q 0 then
        if Qeq_bool p 0 then NaN else Infinity (negb (Qle_bool 0 p))
      else Finite (round (p / q)%Q)
  end.

(** The loop body of [computeCosts], lines 150 to 161, on these values. *)
Definition distance_cost_ieee (round : Q -> Q) (max_distance dist : double) : double :=
  if ieee_ge dist max_distance then
    Finite 0 (* away from obstacle *)
  else if ieee_lt dist (Finite 0) then
    Finite 1 (* in collision *)
  else
    ieee_div round (ieee_sub round max_distance dist) max_distance.

(** What rounding to nearest does: it keeps the order, and it leaves 0
    and 1, which are doubles, alone. *)
Record rounds_to_nearest (round : Q -> Q) : Prop := {
  round_monotone : forall p q, (p <= q)%Q -> (round p <= round q)%Q;
  round_zero : (round 0%Q == 0)%Q;
  round_one : (round 1%Q == 1)%Q
}.

(** No rounding at all. *)
Definition exact (q : Q) : Q := q.

(** Rounding to the nearest multiple of 1/1024, a coarse stand-in for the
    grid of the doubles. *)
Definition to_grid (q : Q) : Q :=
  (inject_Z (Qfloor (q * 1024 + (1 # 2))) / 1024)%Q.

(** Two doubles are the same value. *)
Definition ieee_same (a b : double) : Prop :=
  match a, b with
  | NaN, NaN => True
  | Infinity s, Infinity s' => s = s'
  | Finite p, Finite q => (p == q)%Q
  | _, _ => False
  end.

(** A double between 0 and 1; NaN is not. *)
Definition in_unit_interval (c : double) : Prop :=
  ieee_ge c (Finite 0) = true /\ ieee_ge (Finite 1) c = true.

(** ** Eigen *)

Abbreviation VectorXd := (list Q) (only parsing).
Abbreviation MatrixXd := (list (list Q)) (only parsing).

(** [Eigen::VectorXd::Zero(n)] *)
Definition Zero (n : Z) : VectorXd := replicate (Z.to_nat n) 0%Q.

(** The largest [Eigen::Index], the signed type of Eigen's sizes. *)
Definition Index_MAX : Z := 2 ^ 63 - 1.

(** Whether [costs = Eigen::VectorXd::Zero(n)] gets its [n] coefficients.
    A vector that has [n] coefficients already is reused and an empty
    vector needs no memory; otherwise [n], a [std::size_t], must still be
    an [Eigen::Index] and the heap must grant the [n] doubles. *)
Definition vector_granted (heap_grants : Z -> bool) (costs : VectorXd) (n : Z) : bool :=
  (n <=? Index_MAX) &&
  ((Z.of_nat (length costs) =? n) || (n =? 0) || heap_grants n).

(** [m.cols()] *)
Definition cols (m : MatrixXd) : Z := Z.of_nat (length m).

(** [m.col(t)], [None] outside the matrix. *)
Definition col (m : MatrixXd) (t : Z) : option (list Q) :=
  if t <? 0 then None else m !! Z.to_nat t.

(** [v(t) = x], [None] outside the vector. *)
Definition coeff_write (v : VectorXd) (t : Z) (x : Q) : option VectorXd :=
  if (0 <=? t) && (t <? Z.of_nat (length v)) then Some (<[Z.to_nat t := x]> v)
  else None.

(** ** XmlRpc values

    The part of [XmlRpc::XmlRpcValue] that [configure] uses: the type tag,
    [hasMember], [operator[]] on a name and the conversion to [double]. *)

#[local] Unset Elimination Schemes.
Inductive XmlRpcValue : Type :=
| TypeInvalid
| TypeBoolean (b : bool)
| TypeInt (i : Z)
| TypeDouble (d : Q)
| TypeString (s : string)
| TypeDateTime (seconds : Z)
| TypeBase64 (data : list Z)
| TypeArray (elements : list XmlRpcValue)
| TypeStruct (members : list (string * XmlRpcValue)).
#[local] Set Elimination Schemes.

Inductive XmlRpcException : Type :=
| XmlRpcTypeError.

(** The C++ exceptions of the code: those of XmlRpc, which [configure]
    catches, and the [std::bad_alloc] of a refused allocation. *)
Inductive exception : Type :=
| XmlRpc_XmlRpcException (e : XmlRpcException)
| std_bad_alloc.

Fixpoint find_member (members : list (string * XmlRpcValue)) (name : string)
  : option XmlRpcValue :=
  match members with
  | [] => None
  | (k, v) :: rest => if String.eqb k name then Some v else find_member rest name
  end.

(** [v.hasMember(name)]: a struct that has the member. *)
Definition hasMember (v : XmlRpcValue) (name : string) : bool :=
  match v with
  | TypeStruct members =>
      match find_member members name with Some _ => true | None => false end
  | _ => false
  end.

(** The member [name] of a struct, when there is one. *)
Definition value_of (v : XmlRpcValue) (name : string) : option XmlRpcValue :=
  match v with
  | TypeStruct members => find_member members name
  | _ => None
  end.

(** [v[name]] on a non-const value: an invalid value turns into an empty
    struct, a missing member is created invalid, any other type throws. *)
Definition member (v : XmlRpcValue) (name : string)
  : XmlRpcValue + XmlRpcException :=
  match v with
  | TypeInvalid => inl TypeInvalid
  | TypeStruct members =>
      match find_member members name with
      | Some x => inl x
      | None => inl TypeInvalid
      end
  | _ => inr XmlRpcTypeError
  end.

(** [static_cast<double>(v)]: only a double converts; an invalid value
    becomes the double 0.0; every other type throws. *)
Definition to_double (v : XmlRpcValue) : Q + XmlRpcException :=
  match v with
  | TypeDouble d => inl d
  | TypeInvalid => inl 0%Q
  | _ => inr XmlRpcTypeError
  end.

(** The member [name] is present and does not convert to a double. *)
Definition not_numeric (config : XmlRpcValue) (name : string) : Prop :=
  exists v e, value_of config name = Some v /\ to_double v = inr e.

(** The configurations that [configure] is to refuse: a required key is
    absent, or a present value is not a double. *)
Definition rejected_config (config : XmlRpcValue) : Prop :=
  hasMember config "cost_weight" = false \/
  hasMember config "max_distance" = false \/
  not_numeric config "cost_weight" \/
  not_numeric config "max_distance".

(** The configurations that [configure] takes: both members are present
    and convert, to [maxd] and to [weight]. *)
Definition accepted_config (config : XmlRpcValue) (maxd weight : Q) : Prop :=
  exists vm vw,
    value_of config "max_distance" = Some vm /\ to_double vm = inl maxd /\
    value_of config "cost_weight" = Some vw /\ to_double vw = inl weight.

(** [moveit_msgs::MoveItErrorCodes]: the [val] field and the constants
    used here. *)
Definition MoveItErrorCodes := Z.
Definition SUCCESS : MoveItErrorCodes := 1.
Definition FAILURE : MoveItErrorCodes := 99999.

(** ** The distance-to-cost policy of the specification

    Written from the words of the specification, as a relation between
    the distance [d], the threshold [D] and the cost [c]. *)
Definition cost_policy_spec (D d c : Q) : Prop :=
  (Qle D d -> c = 0%Q) /\
  (~ Qle D d -> Qlt d 0 -> c = 1%Q) /\
  (~ Qle D d -> ~ Qlt d 0 -> c = ((D - d) / D)%Q).

(** ** Collaborators

    The types and operations of MoveIt and of the STOMP core that the cost
    function calls.  Their code is not part of this file; every property
    below holds for all of them. *)

Class Collaborators : Type := {
  StompRobotModel : Type;
  JointModelGroup : Type;
  RobotState : Type;
  PlanningScene : Type;
  RobotStateMsg : Type;
  MotionPlanRequest : Type;
  StompConfiguration : Type;
  (** [model->hasDistanceField()] *)
  hasDistanceField : StompRobotModel -> bool;
  (** [model->getJointModelGroup(name)] *)
  getJointModelGroup : StompRobotModel -> string -> JointModelGroup;
  (** [model->distance(group, scene, state)] *)
  distance : StompRobotModel -> string -> option PlanningScene -> RobotState -> Q;
  (** [new RobotState(model)] *)
  new_RobotState : option StompRobotModel -> RobotState;
  (** [robotStateMsgToRobotState(msg, state, copy_attached_bodies)]: the
      boolean it returns and the state it leaves in [state]. *)
  robotStateMsgToRobotState : RobotStateMsg -> RobotState -> bool -> bool * RobotState;
  (** [state.setJointGroupPositions(group, values)] *)
  setJointGroupPositions : RobotState -> JointModelGroup -> list Q -> RobotState;
  (** [state.update()] *)
  update : RobotState -> RobotState;
  (** [req.start_state] *)
  start_state : MotionPlanRequest -> RobotStateMsg
}.

(** ** The cost function object *)

Section ObstacleDistanceGradient.

Context `{Collaborators}.

(** *** Data members *)

Record ObstacleDistanceGradient : Type := mkObstacleDistanceGradient {
  name_ : string;
  robot_model_ptr_ : option StompRobotModel;
  group_name_ : string;
  max_distance_ : Q;
  cost_weight_ : Q;
  planning_scene_ : option PlanningScene;
  plan_request_ : MotionPlanRequest;
  robot_state_ : option RobotState
}.

(** What the object does to its surroundings: a line on the ROS console,
    or a distance query answered by the robot model. *)
Inductive event : Type :=
| ROS_ERROR (msg : string)
| DistanceQuery (group : string) (scene : option PlanningScene)
    (state : RobotState) (answer : Q).

Record World : Type := mkWorld {
  self : ObstacleDistanceGradient;
  trace : list event
}.

(** The undefined behaviours of the code; [OutOfFuel] belongs to the model
    alone: a loop was given fewer steps than it takes (never the case in
    [computeCosts], see [for_timesteps_outcome]). *)
Inductive fault : Type :=
| NullDereference
| IndexOutOfRange
| OutOfFuel.

(** How a call ends: it returns, an exception is in flight, or the
    behaviour is undefined. *)
Inductive result (A : Type) : Type :=
| Returns (a : A) (w : World)
| Throws (e : exception) (w : World)
| Undefined (f : fault).
Arguments Returns {A} a w.
Arguments Throws {A} e w.
Arguments Undefined {A} f.

Definition M (A : Type) : Type := World -> result A.

Definition ret {A} (a : A) : M A := fun w => Returns a w.

Definition bind {A B} (m : M A) (k : A -> M B) : M B :=
  fun w =>
    match m w with
    | Returns a w' => k a w'
    | Throws e w' => Throws e w'
    | Undefined f => Undefined f
    end.

Definition throw {A} (e : exception) : M A := fun w => Throws e w.

Definition undefined {A} (f : fault) : M A := fun _ => Undefined f.

(** [try { body } catch (XmlRpcException&) { handler }]: the writes of
    [body] up to the throw stay; any other exception goes on. *)
Definition try_catch {A} (body : M A) (handler : XmlRpcException -> M A) : M A :=
  fun w =>
    match body w with
    | Throws (XmlRpc_XmlRpcException e) w' => handler e w'
    | r => r
    end.

Definition this : M ObstacleDistanceGradient := fun w => Returns (self w) w.

Definition assign (f : ObstacleDistanceGradient -> ObstacleDistanceGradient) : M unit :=
  fun w => Returns tt {| self := f (self w); trace := trace w |}.

Definition emit (e : event) : M unit :=
  fun w => Returns tt {| self := self w; trace := trace w ++ [e] |}.

(** The world after one more line on the console. *)
Definition logged (w : World) (msg : string) : World :=
  {| self := self w; trace := trace w ++ [ROS_ERROR msg] |}.

(** [*p] and [p->] on a smart pointer. *)
Definition deref {A} (p : option A) : M A :=
  match p with
  | Some a => ret a
  | None => undefined NullDereference
  end.

(** The value of an expression that may throw. *)
Definition eval {A} (x : A + XmlRpcException) : M A :=
  match x with
  | inl a => ret a
  | inr e => throw (XmlRpc_XmlRpcException e)
  end.

(** The value of an indexing expression. *)
Definition in_range {A} (x : option A) : M A :=
  match x with
  | Some a => ret a
  | None => undefined IndexOutOfRange
  end.

Notation "'let*' x ':=' m 'in' k" := (bind m (fun x => k))
  (at level 10, x name, m at level 100, k at level 200).
Notation "'run' m 'in' k" := (bind m (fun _ => k))
  (at level 10, m at level 100, k at level 200).

(** *** Field writes *)

Definition set_robot_model_ptr_ (v : option StompRobotModel) o :=
  {| name_ := name_ o; robot_model_ptr_ := v; group_name_ := group_name_ o;
     max_distance_ := max_distance_ o; cost_weight_ := cost_weight_ o;
     planning_scene_ := planning_scene_ o; plan_request_ := plan_request_ o;
     robot_state_ := robot_state_ o |}.

Definition set_group_name_ (v : string) o :=
  {| name_ := name_ o; robot_model_ptr_ := robot_model_ptr_ o; group_name_ := v;
     max_distance_ := max_distance_ o; cost_weight_ := cost_weight_ o;
     planning_scene_ := planning_scene_ o; plan_request_ := plan_request_ o;
     robot_state_ := robot_state_ o |}.

Definition set_max_distance_ (v : Q) o :=
  {| name_ := name_ o; robot_model_ptr_ := robot_model_ptr_ o;
     group_name_ := group_name_ o;
     max_distance_ := v; cost_weight_ := cost_weight_ o;
     planning_scene_ := planning_scene_ o; plan_request_ := plan_request_ o;
     robot_state_ := robot_state_ o |}.

Definition set_cost_weight_ (v : Q) o :=
  {| name_ := name_ o; robot_model_ptr_ := robot_model_ptr_ o;
     group_name_ := group_name_ o;
     max_distance_ := max_distance_ o; cost_weight_ := v;
     planning_scene_ := planning_scene_ o; plan_request_ := plan_request_ o;
     robot_state_ := robot_state_ o |}.

Definition set_planning_scene_ (v : option PlanningScene) o :=
  {| name_ := name_ o; robot_model_ptr_ := robot_model_ptr_ o;
     group_name_ := group_name_ o;
     max_distance_ := max_distance_ o; cost_weight_ := cost_weight_ o;
     planning_scene_ := v; plan_request_ := plan_request_ o;
     robot_state_ := robot_state_ o |}.

Definition set_plan_request_ (v : MotionPlanRequest) o :=
  {| name_ := name_ o; robot_model_ptr_ := robot_model_ptr_ o;
     group_name_ := group_name_ o;
     max_distance_ := max_distance_ o; cost_weight_ := cost_weight_ o;
     planning_scene_ := planning_scene_ o; plan_request_ := v;
     robot_state_ := robot_state_ o |}.

Definition set_robot_state_ (v : option RobotState) o :=
  {| name_ := name_ o; robot_model_ptr_ := robot_model_ptr_ o;
     group_name_ := group_name_ o;
     max_distance_ := max_distance_ o; cost_weight_ := cost_weight_ o;
     planning_scene_ := planning_scene_ o; plan_request_ := plan_request_ o;
     robot_state_ := v |}.

(** [o'] is [o] up to the pose snapshot. *)
Definition same_but_snapshot (o o' : ObstacleDistanceGradient) : Prop :=
  o' = set_robot_state_ (robot_state_ o') o.

(** *** Member functions *)

(** The constructor: [name_] and an empty [robot_state_]; the other
    smart pointers are default-constructed, the two doubles hold
    whatever the memory held ([max0], [weight0]) and the request is the
    default-constructed message ([req0]). *)
Definition constructor (max0 weight0 : Q) (req0 : MotionPlanRequest)
  : ObstacleDistanceGradient :=
  {| name_ := "ObstacleDistanceGradient";
     robot_model_ptr_ := None;
     group_name_ := "";
     max_distance_ := max0;
     cost_weight_ := weight0;
     planning_scene_ := None;
     plan_request_ := req0;
     robot_state_ := None |}.

Definition getName : M string := let* o := this in ret (name_ o).

(** The presence check of [configure]: the loop over
    [{"cost_weight", "max_distance"}]; [Some false] stands for the
    [return false] inside the loop, [None] for falling out of it. *)
Fixpoint check_members (config : XmlRpcValue) (members : list string)
  : M (option bool) :=
  match members with
  | [] => ret None
  | m :: rest =>
      if negb (hasMember config m) then
        let* n := getName in
        run emit (ROS_ERROR (n +:+ " failed to find the '" +:+ m +:+ "' parameter")) in
        ret (Some false)
      else check_members config rest
  end.

Definition configure (config : XmlRpcValue) : M bool :=
  let* r :=
    try_catch
      (let* early := check_members config ["cost_weight"; "max_distance"] in
       match early with
       | Some b => ret (Some b)
       | None =>
           let c := config in
           let* v := eval (member c "max_distance") in
           let* d := eval (to_double v) in
           run assign (set_max_distance_ d) in
           let* v := eval (member c "cost_weight") in
           let* d := eval (to_double v) in
           run assign (set_cost_weight_ d) in
           ret None
       end)
      (fun e =>
         let* o := this in
         run emit (ROS_ERROR (name_ o +:+ " failed to parse configuration parameters")) in
         ret (Some false)) in
  match r with
  | Some b => ret b
  | None => ret true
  end.

Definition initialize (robot_model_ptr : option StompRobotModel)
    (group_name : string) (config : XmlRpcValue) : M bool :=
  run assign (set_robot_model_ptr_ robot_model_ptr) in
  let* o := this in
  let* model := deref (robot_model_ptr_ o) in
  if negb (hasDistanceField model) then
    run emit (ROS_ERROR "StompRobotModel has no Distance Field") in
    ret false
  else
    run assign (set_group_name_ group_name) in
    configure config.

Definition setMotionPlanRequest (planning_scene : option PlanningScene)
    (req : MotionPlanRequest) (config : StompConfiguration)
    (error_code : MoveItErrorCodes) : M (bool * MoveItErrorCodes) :=
  run assign (set_planning_scene_ planning_scene) in
  run assign (set_plan_request_ req) in
  let error_code := SUCCESS in
  (* storing robot state *)
  let* o := this in
  run assign (set_robot_state_ (Some (new_RobotState (robot_model_ptr_ o)))) in
  let* o := this in
  let* state := deref (robot_state_ o) in
  let '(converted, state) := robotStateMsgToRobotState (start_state req) state true in
  run assign (set_robot_state_ (Some state)) in
  if negb converted then
    let* n := getName in
    run emit (ROS_ERROR (n +:+ " Failed to get current robot state from request")) in
    ret (false, error_code)
  else
    ret (true, error_code).

(** The three branches of the loop body of [computeCosts]. *)
Definition distance_cost (max_distance dist : Q) : Q :=
  if double_ge dist max_distance then
    0%Q (* away from obstacle *)
  else if double_lt dist 0 then
    1%Q (* in collision *)
  else
    ((max_distance - dist) / max_distance)%Q.

(** One iteration of the loop of [computeCosts], at column [t]. *)
Definition score_timestep (parameters : MatrixXd) (joint_group : JointModelGroup)
    (t : Z) (costs : VectorXd) : M VectorXd :=
  let* o := this in
  let* state := deref (robot_state_ o) in
  let* column := in_range (col parameters t) in
  let state := setJointGroupPositions state joint_group column in
  let state := update state in
  run assign (set_robot_state_ (Some state)) in
  let* o := this in
  let* model := deref (robot_model_ptr_ o) in
  let dist := distance model (group_name_ o) (planning_scene_ o) state in
  run emit (DistanceQuery (group_name_ o) (planning_scene_ o) state dist) in
  let cost := distance_cost (max_distance_ o) dist in
  in_range (coeff_write costs t cost).

(** [for (auto t = ...; t < last; ++t) body], in at most [fuel]
    iterations. *)
Fixpoint for_timesteps (fuel : nat) (t last : Z) (body : Z -> VectorXd -> M VectorXd)
    (costs : VectorXd) : M VectorXd :=
  if t <? last then
    match fuel with
    | O => undefined OutOfFuel
    | S fuel' =>
        let* costs := body t costs in
        for_timesteps fuel' (size_add t 1) last body costs
    end
  else ret costs.

(** [costs] and [validity] are the caller's objects: their values at the
    call are arguments and their values at the return are results. *)
Definition computeCosts (parameters : MatrixXd) (start_timestep num_timesteps : Z)
    (iteration_number rollout_number : Z) (costs : VectorXd) (validity : bool)
  : M (bool * VectorXd * bool) :=
  let* o := this in
  match robot_state_ o with
  | None =>
      let* n := getName in
      run emit (ROS_ERROR (n +:+ " Robot State has not been updated")) in
      ret (false, costs, validity)
  | Some _ =>
      (* allocating *)
      let costs := Zero num_timesteps in
      let* model := deref (robot_model_ptr_ o) in
      let joint_group := getJointModelGroup model (group_name_ o) in
      if cols parameters <? size_add start_timestep num_timesteps then
        run emit (ROS_ERROR "Size in the 'parameters' matrix is less than required") in
        ret (false, costs, validity)
      else
        (* request the distance at each state *)
        let last := size_add start_timestep num_timesteps in
        let* costs :=
          for_timesteps (Z.to_nat (last - start_timestep)) start_timestep last
            (score_timestep parameters joint_group) costs in
        let validity := true in
        ret (true, costs, validity)
  end.

Definition done (success : bool) (total_iterations : Z) (final_cost : Q) : M unit :=
  assign (set_robot_state_ None).

(** *** [computeCosts] with the allocation of line 130

    [computeCosts] above takes the vector of line 130 for granted.  Here
    the heap decides: [heap_grants n] says whether it has [n] doubles to
    give, and a refused vector ends the call in [std::bad_alloc], before
    the column check of line 133. *)

(** [costs = Eigen::VectorXd::Zero(n)] *)
Definition assign_Zero (heap_grants : Z -> bool) (costs : VectorXd) (n : Z)
  : M VectorXd :=
  if vector_granted heap_grants costs n then ret (Zero n) else throw std_bad_alloc.

Definition computeCosts_on_heap (heap_grants : Z -> bool)
    (parameters : MatrixXd) (start_timestep num_timesteps : Z)
    (iteration_number rollout_number : Z) (costs : VectorXd) (validity : bool)
  : M (bool * VectorXd * bool) :=
  let* o := this in
  match robot_state_ o with
  | None =>
      let* n := getName in
      run emit (ROS_ERROR (n +:+ " Robot State has not been updated")) in
      ret (false, costs, validity)
  | Some _ =>
      (* allocating *)
      let* costs := assign_Zero heap_grants costs num_timesteps in
      let* model := deref (robot_model_ptr_ o) in
      let joint_group := getJointModelGroup model (group_name_ o) in
      if cols parameters <? size_add start_timestep num_timesteps then
        run emit (ROS_ERROR "Size in the 'parameters' matrix is less than required") in
        ret (false, costs, validity)
      else
        (* request the distance at each state *)
        let last := size_add start_timestep num_timesteps in
        let* costs :=
          for_timesteps (Z.to_nat (last - start_timestep)) start_timestep last
            (score_timestep parameters joint_group) costs in
        let validity := true in
        ret (true, costs, validity)
  end.

(** *** Sequences of calls *)

(** A call of one of the public member functions by the optimizer. *)
Inductive call : Type :=
| call_initialize (robot_model_ptr : option StompRobotModel) (group_name : string)
    (config : XmlRpcValue)
| call_configure (config : XmlRpcValue)
| call_setMotionPlanRequest (planning_scene : option PlanningScene)
    (req : MotionPlanRequest) (config : StompConfiguration)
    (error_code : MoveItErrorCodes)
| call_computeCosts (parameters : MatrixXd) (start_timestep num_timesteps : Z)
    (iteration_number rollout_number : Z) (costs : VectorXd) (validity : bool)
| call_done (success : bool) (total_iterations : Z) (final_cost : Q).

(** The call and the boolean it returns ([None] for [done]). *)
Definition perform (c : call) : M (option bool) :=
  match c with
  | call_initialize robot_model_ptr group_name config =>
      let* b := initialize robot_model_ptr group_name config in ret (Some b)
  | call_configure config =>
      let* b := configure config in ret (Some b)
  | call_setMotionPlanRequest planning_scene req config error_code =>
      let* r := setMotionPlanRequest planning_scene req config error_code in
      ret (Some (fst r))
  | call_computeCosts parameters start_timestep num_timesteps iteration_number
      rollout_number costs validity =>
      let* r := computeCosts parameters start_timestep num_timesteps
                  iteration_number rollout_number costs validity in
      ret (Some (fst (fst r)))
  | call_done success total_iterations final_cost =>
      run done success total_iterations final_cost in ret None
  end.

Fixpoint perform_all (calls : list call) : M (list (option bool)) :=
  match calls with
  | [] => ret []
  | c :: rest =>
      let* r := perform c in
      let* rs := perform_all rest in
      ret (r :: rs)
  end.

(** In the words of the specification: the object is armed by a
    [setMotionPlanRequest] that returned true and disarmed by [done]. *)
Fixpoint armed_after (armed : bool) (calls : list call) (returned : list (option bool))
  : bool :=
  match calls, returned with
  | call_setMotionPlanRequest _ _ _ _ :: calls', r :: returned' =>
      armed_after (match r with Some true => true | _ => armed end) calls' returned'
  | call_done _ _ _ :: calls', _ :: returned' => armed_after false calls' returned'
  | _ :: calls', _ :: returned' => armed_after armed calls' returned'
  | _, _ => armed
  end.

(** In the terms of the code: a snapshot is held from any
    [setMotionPlanRequest] that returns until the next [done]. *)
Fixpoint snapshot_after (held : bool) (calls : list call) : bool :=
  match calls with
  | [] => held
  | call_setMotionPlanRequest _ _ _ _ :: calls' => snapshot_after true calls'
  | call_done _ _ _ :: calls' => snapshot_after false calls'
  | _ :: calls' => snapshot_after held calls'
  end.

(** The query [q] is the one of timestep [t] and [c] is the cost the
    loop body computes from its answer: column [t] was applied to the
    snapshot, the model was asked for the distance of the resulting
    state, and [c] is [distance_cost] of the answer. *)
Definition scores (parameters : MatrixXd) (joint_group : JointModelGroup)
    (model : StompRobotModel) (o : ObstacleDistanceGradient)
    (t : Z) (q : event) (c : Q) : Prop :=
  exists previous column,
    col parameters t = Some column /\
    let state := update (setJointGroupPositions previous joint_group column) in
    let dist := distance model (group_name_ o) (planning_scene_ o) state in
    q = DistanceQuery (group_name_ o) (planning_scene_ o) state dist /\
    c = distance_cost (max_distance_ o) dist.


Definition is_distance_query (e : event) : bool :=
  match e with
  | DistanceQuery _ _ _ _ => true
  | ROS_ERROR _ => false
  end.

(** [o'] is [o] up to the two thresholds. *)
Definition same_but_thresholds (o o' : ObstacleDistanceGradient) : Prop :=
  o' = set_cost_weight_ (cost_weight_ o') (set_max_distance_ (max_distance_ o') o).

End ObstacleDistanceGradient.

Arguments Returns {_ A} a w.
Arguments Throws {_ A} e w.
Arguments Undefined {_ A} f.

(** ** A concrete collaborator: a slider on a rail

    One prismatic joint; the planning scene is the position of a wall on
    the rail and the distance of a state is what separates the slider from
    the wall (negative once it is past the wall).  A start-state message
    without joint values cannot be converted. *)

Module Rail.

Definition wall_distance (has_field : bool) (group : string) (scene : option Q)
    (state : list Q) : Q :=
  (match scene with Some wall => wall | None => 0 end - hd 0 state)%Q.

Definition read_start_state (msg : option (list Q)) (state : list Q)
    (copy_attached_bodies : bool) : bool * list Q :=
  match msg with
  | Some joints => (true, joints)
  | None => (false, state)
  end.

Definition collaborators : Collaborators := {|
  StompRobotModel := bool;
  JointModelGroup := string;
  RobotState := list Q;
  PlanningScene := Q;
  RobotStateMsg := option (list Q);
  MotionPlanRequest := option (list Q);
  StompConfiguration := unit;
  hasDistanceField := fun has_field => has_field;
  getJointModelGroup := fun _ name => name;
  distance := wall_distance;
  new_RobotState := fun _ => [];
  robotStateMsgToRobotState := read_start_state;
  setJointGroupPositions := fun _ _ values => values;
  update := fun state => state;
  start_state := fun req => req
|}.

Definition model (has_field : bool) : @StompRobotModel collaborators := has_field.
Definition wall (position : Q) : @PlanningScene collaborators := position.
Definition slider (joints : list Q) : @RobotState collaborators := joints.
Definition request (joints : option (list Q)) : @MotionPlanRequest collaborators :=
  joints.
Definition stomp_config : @StompConfiguration collaborators := tt.

(** [{cost_weight: 1.0, max_distance: 0.1}] *)
Definition config : XmlRpcValue :=
  TypeStruct [("cost_weight", TypeDouble 1); ("max_distance", TypeDouble (1 # 10))].

(** [{cost_weight: 1.0}]: the threshold is missing. *)
Definition config_without_max_distance : XmlRpcValue :=
  TypeStruct [("cost_weight", TypeDouble 1)].

(** [{cost_weight: "high", max_distance: 0.5}]: the weight is a string. *)
Definition config_with_text_weight : XmlRpcValue :=
  TypeStruct [("cost_weight", TypeString "high"); ("max_distance", TypeDouble (1 # 2))].

(** A heap with a million doubles to give. *)
Definition heap (n : Z) : bool := n <=? 1000000.

(** A rollout of four timesteps: the slider moves up to the wall at 1,
    through it, and back to 0. *)
Definition rollout : MatrixXd :=
  [[(95 # 100)%Q]; [1%Q]; [(105 # 100)%Q]; [0%Q]].

(** A rollout of two timesteps. *)
Definition short_rollout : MatrixXd := [[(95 # 100)%Q]; [1%Q]].

(** A freshly constructed object and an empty console. *)
Definition fresh : @World collaborators :=
  {| self := constructor 0 0 (request None); trace := [] |}.

(** The object after [initialize(model, "slider", config)]. *)
Definition configured : @World collaborators :=
  {| self := {| name_ := "ObstacleDistanceGradient";
                robot_model_ptr_ := Some (model true);
                group_name_ := "slider";
                max_distance_ := 1 # 10;
                cost_weight_ := 1;
                planning_scene_ := None;
                plan_request_ := request None;
                robot_state_ := None |};
     trace := [] |}.

(** The object after a [setMotionPlanRequest] with the wall at 1 and the
    slider at 0. *)
Definition armed : @World collaborators :=
  {| self := {| name_ := "ObstacleDistanceGradient";
                robot_model_ptr_ := Some (model true);
                group_name_ := "slider";
                max_distance_ := 1 # 10;
                cost_weight_ := 1;
                planning_scene_ := Some (wall 1);
                plan_request_ := request (Some [0%Q]);
                robot_state_ := Some (slider [0%Q]) |};
     trace := [] |}.

(** The costs of [rollout] against [armed]: halfway into the margin,
    touching the wall, through the wall, far away. *)
Definition rollout_costs : VectorXd :=
  [distance_cost (1 # 10) (5 # 100); distance_cost (1 # 10) 0; 1%Q; 0%Q].

(** [armed] after [rollout] has been scored. *)
Definition scored : @World collaborators :=
  {| self := self armed;
     trace := [DistanceQuery "slider" (Some (wall 1)) (slider [(95 # 100)%Q]) (5 # 100);
               DistanceQuery "slider" (Some (wall 1)) (slider [1%Q]) 0;
               DistanceQuery "slider" (Some (wall 1)) (slider [(105 # 100)%Q]) (-5 # 100);
               DistanceQuery "slider" (Some (wall 1)) (slider [0%Q]) 1] |}.

(** A planning request from start to end: the object is set up, armed,
    asked for the costs of [rollout] and told that the run is over. *)
Definition planning_run : list (@call collaborators) :=
  [call_initialize (Some (model true)) "slider" config;
   call_setMotionPlanRequest (Some (wall 1)) (request (Some [0%Q])) stomp_config FAILURE;
   call_computeCosts rollout 0 4 0 0 [] false;
   call_done true 40 0].

(** The object after [planning_run]. *)
Definition finished : @World collaborators :=
  {| self := set_robot_state_ None (self armed); trace := trace scored |}.

(** [{cost_weight: 1.0, max_distance: 0}]: an integer threshold. *)
Definition config_with_integer_threshold : XmlRpcValue :=
  TypeStruct [("cost_weight", TypeDouble 1); ("max_distance", TypeInt 0)].

(** The object is set up and given a request without joint values. *)
Definition refused_request : list (@call collaborators) :=
  [call_initialize (Some (model true)) "slider" config;
   call_setMotionPlanRequest (Some (wall 1)) (request None) stomp_config FAILURE].

End Rail.

Example rail_initialize :
  initialize (Some (Rail.model true)) "slider" Rail.config Rail.fresh
  = Returns true Rail.configured.
Proof. reflexivity. Qed.

Example rail_setMotionPlanRequest :
  setMotionPlanRequest (Some (Rail.wall 1)) (Rail.request (Some [0%Q]))
    Rail.stomp_config FAILURE Rail.configured
  = Returns (true, SUCCESS) Rail.armed.
Proof. reflexivity. Qed.

(** ** The distance-to-cost mapping *)

Lemma double_ge_true (a b : Q) : double_ge a b = true <-> (b <= a)%Q.
Proof. unfold double_ge. apply Qle_bool_iff. Qed.

Lemma double_ge_false (a b : Q) : double_ge a b = false <-> (a < b)%Q.
Proof.
  unfold double_ge. split; intros Hx.
  - apply Qnot_le_lt. intros Hle. apply Qle_bool_iff in Hle. congruence.
  - destruct (Qle_bool b a) eqn:E; [|reflexivity].
    apply Qle_bool_iff in E. lra.
Qed.

Lemma double_lt_true (a b : Q) : double_lt a b = true <-> (a < b)%Q.
Proof.
  unfold double_lt. rewrite negb_true_iff. apply (double_ge_false a b).
Qed.

Lemma double_lt_false (a b : Q) : double_lt a b = false <-> (b <= a)%Q.
Proof.
  unfold double_lt. rewrite negb_false_iff. apply (double_ge_true a b).
Qed.

Lemma distance_cost_away (D d : Q) : (D <= d)%Q -> distance_cost D d = 0%Q.
Proof.
  intros Hd. unfold distance_cost.
  apply double_ge_true in Hd. now rewrite Hd.
Qed.

Lemma distance_cost_collision (D d : Q) :
  (d < D)%Q -> (d < 0)%Q -> distance_cost D d = 1%Q.
Proof.
  intros HD H0. unfold distance_cost.
  apply double_ge_false in HD. apply double_lt_true in H0.
  now rewrite HD, H0.
Qed.

Lemma distance_cost_ramp (D d : Q) :
  (d < D)%Q -> (0 <= d)%Q -> distance_cost D d = ((D - d) / D)%Q.
Proof.
  intros HD H0. unfold distance_cost.
  apply double_ge_false in HD. apply double_lt_false in H0.
  now rewrite HD, H0.
Qed.

Lemma distance_cost_meets_policy (D d : Q) : cost_policy_spec D d (distance_cost D d).
Proof.
  repeat split.
  - apply distance_cost_away.
  - intros HD H0. apply distance_cost_collision; [lra | exact H0].
  - intros HD H0. apply distance_cost_ramp; lra.
Qed.

(** The scenarios of the specification. *)
Example scenario_at_threshold : distance_cost (1 # 10) (1 # 10) = 0%Q.
Proof. reflexivity. Qed.

Example scenario_in_collision : distance_cost (1 # 10) (- (1 # 100)) = 1%Q.
Proof. reflexivity. Qed.

Example scenario_halfway : (distance_cost (1 # 10) (5 # 100) == 1 # 2)%Q.
Proof. reflexivity. Qed.

(** ** [setMotionPlanRequest] *)

(** What a call does, whatever the request: it always returns, with the
    outcome of the start-state conversion as its value. *)
Lemma setMotionPlanRequest_returns `{Collaborators}
    (planning_scene : option PlanningScene) (req : MotionPlanRequest)
    (config : StompConfiguration) (error_code : MoveItErrorCodes) (w : World) :
  let fresh := new_RobotState (robot_model_ptr_ (self w)) in
  let conversion := robotStateMsgToRobotState (start_state req) fresh true in
  setMotionPlanRequest planning_scene req config error_code w
  = Returns (fst conversion, SUCCESS)
      {| self := set_robot_state_ (Some (snd conversion))
                   (set_plan_request_ req (set_planning_scene_ planning_scene (self w)));
         trace := if fst conversion then trace w
                  else trace w ++
                    [ROS_ERROR (name_ (self w) +:+
                                " Failed to get current robot state from request")] |}.
Proof.
  intros fresh conversion. subst fresh conversion.
  unfold setMotionPlanRequest, bind, assign, this, deref, ret, getName, emit. simpl.
  destruct (robotStateMsgToRobotState _ _ _) as [[|] state]; reflexivity.
Qed.

(** C4: every call to [setMotionPlanRequest] returns with the error code
    [SUCCESS], whatever the code held at the call; the value returned is
    the outcome of the start-state conversion, so a call that returns
    false still reports [SUCCESS]. *)
Theorem setMotionPlanRequest_error_code_success `{Collaborators}
    (planning_scene : option PlanningScene) (req : MotionPlanRequest)
    (config : StompConfiguration) (error_code : MoveItErrorCodes) (w : World) :
  exists (converted : bool) (w' : World),
    setMotionPlanRequest planning_scene req config error_code w
    = Returns (converted, SUCCESS) w' /\
    converted
    = fst (robotStateMsgToRobotState (start_state req)
             (new_RobotState (robot_model_ptr_ (self w))) true).
Proof.
  rewrite setMotionPlanRequest_returns. eauto.
Qed.

(** A request without joint values: the call fails and says [SUCCESS]. *)
Example rail_setMotionPlanRequest_fails :
  exists w',
    setMotionPlanRequest (Some (Rail.wall 1)) (Rail.request None)
      Rail.stomp_config FAILURE Rail.configured
    = Returns (false, SUCCESS) w' /\
    robot_state_ (self w') = Some (Rail.slider []).
Proof. rewrite setMotionPlanRequest_returns. eexists. split; reflexivity. Qed.

(** C9: [setMotionPlanRequest] stores the planning scene and the request
    and replaces the pose snapshot by a freshly allocated state (as the
    conversion left it) whether it returns true or false; the snapshot is
    not null afterwards. *)
Theorem setMotionPlanRequest_overwrites_before_validating `{Collaborators}
    (planning_scene : option PlanningScene) (req : MotionPlanRequest)
    (config : StompConfiguration) (error_code : MoveItErrorCodes) (w : World) :
  exists (converted : bool) (code : MoveItErrorCodes) (w' : World),
    setMotionPlanRequest planning_scene req config error_code w
    = Returns (converted, code) w' /\
    planning_scene_ (self w') = planning_scene /\
    plan_request_ (self w') = req /\
    robot_state_ (self w')
    = Some (snd (robotStateMsgToRobotState (start_state req)
                   (new_RobotState (robot_model_ptr_ (self w))) true)) /\
    robot_state_ (self w') <> None.
Proof.
  rewrite setMotionPlanRequest_returns.
  do 3 eexists. split; [reflexivity|]. simpl.
  repeat split. discriminate.
Qed.

(** ** [done] *)

Lemma done_returns `{Collaborators}
    (success : bool) (total_iterations : Z) (final_cost : Q) (w : World) :
  done success total_iterations final_cost w
  = Returns tt {| self := set_robot_state_ None (self w); trace := trace w |}.
Proof. reflexivity. Qed.

(** C8, as the code has it: whatever the success flag, [done] resets the
    pose snapshot to null and leaves every other member as it was: the
    planning scene and the plan request stay stored, and so do the
    thresholds, the group name, the robot model and the name. *)
Theorem done_resets_snapshot_only `{Collaborators}
    (success : bool) (total_iterations : Z) (final_cost : Q) (w : World) :
  exists w',
    done success total_iterations final_cost w = Returns tt w' /\
    robot_state_ (self w') = None /\
    planning_scene_ (self w') = planning_scene_ (self w) /\
    plan_request_ (self w') = plan_request_ (self w) /\
    max_distance_ (self w') = max_distance_ (self w) /\
    cost_weight_ (self w') = cost_weight_ (self w) /\
    group_name_ (self w') = group_name_ (self w) /\
    robot_model_ptr_ (self w') = robot_model_ptr_ (self w) /\
    name_ (self w') = name_ (self w) /\
    trace w' = trace w.
Proof.
  rewrite done_returns. eexists. split; [reflexivity|]. simpl. repeat split.
Qed.

(** C8, as stated, fails: after [done] the planning scene of the request
    is still held, it has not been released. *)
Lemma done_keeps_planning_context :
  ~ (exists w',
       done true 40 0 Rail.armed = Returns tt w' /\
       robot_state_ (self w') = None /\
       planning_scene_ (self w') = None).
Proof.
  intros (w' & Hdone & _ & Hscene).
  rewrite done_returns in Hdone. inversion Hdone; subst w'.
  simpl in Hscene. discriminate.
Qed.

(** ** [configure] *)

Lemma hasMember_value_of (config : XmlRpcValue) (name : string) :
  hasMember config name = match value_of config name with Some _ => true | None => false end.
Proof. destruct config; reflexivity. Qed.

Lemma member_value_of (config : XmlRpcValue) (name : string) (v : XmlRpcValue) :
  value_of config name = Some v -> member config name = inl v.
Proof. destruct config; simpl; try discriminate. now intros ->. Qed.

(** Every path through [configure]. *)
Lemma configure_cases `{Collaborators} (config : XmlRpcValue) (w : World) :
  configure config w =
  match value_of config "cost_weight", value_of config "max_distance" with
  | None, _ =>
      Returns false
        (logged w (name_ (self w) +:+ " failed to find the '" +:+ "cost_weight" +:+ "' parameter"))
  | Some _, None =>
      Returns false
        (logged w (name_ (self w) +:+ " failed to find the '" +:+ "max_distance" +:+ "' parameter"))
  | Some weight, Some maxd =>
      match to_double maxd with
      | inr _ =>
          Returns false
            (logged w (name_ (self w) +:+ " failed to parse configuration parameters"))
      | inl d =>
          match to_double weight with
          | inr _ =>
              Returns false
                (logged {| self := set_max_distance_ d (self w); trace := trace w |}
                   (name_ (self w) +:+ " failed to parse configuration parameters"))
          | inl c =>
              Returns true
                {| self := set_cost_weight_ c (set_max_distance_ d (self w));
                   trace := trace w |}
          end
      end
  end.
Proof.
  unfold configure, try_catch, bind. simpl.
  rewrite !hasMember_value_of.
  destruct (value_of config "cost_weight") as [weight|] eqn:Hw; simpl; [|reflexivity].
  destruct (value_of config "max_distance") as [maxd|] eqn:Hm; simpl; [|reflexivity].
  rewrite (member_value_of _ _ _ Hm), (member_value_of _ _ _ Hw). simpl.
  destruct (to_double maxd) as [d|e]; simpl; [|reflexivity].
  destruct (to_double weight) as [c|e]; reflexivity.
Qed.

(** C5, as the code has it: [configure] returns false whenever a required
    key is absent or a present value is not a double.  The stored
    [cost_weight_] is then unchanged, and the stored [max_distance_] is
    unchanged when a key is absent or when the value of [max_distance]
    is the one that does not convert. *)
Theorem configure_rejects `{Collaborators} (config : XmlRpcValue) (w : World) :
  rejected_config config ->
  exists w',
    configure config w = Returns false w' /\
    cost_weight_ (self w') = cost_weight_ (self w) /\
    (hasMember config "cost_weight" = false \/
     hasMember config "max_distance" = false \/
     not_numeric config "max_distance" ->
     max_distance_ (self w') = max_distance_ (self w)).
Proof.
  intros Hrej. rewrite configure_cases.
  unfold rejected_config, not_numeric in *. rewrite !hasMember_value_of in *.
  destruct (value_of config "cost_weight") as [weight|].
  2:{ eexists. repeat split. }
  destruct (value_of config "max_distance") as [maxd|].
  2:{ eexists. repeat split. }
  destruct (to_double maxd) as [d|e] eqn:Hd.
  2:{ eexists. repeat split. }
  destruct (to_double weight) as [c|e] eqn:Hc.
  - exfalso. destruct Hrej as [Hx|[Hx|[Hx|Hx]]]; try discriminate;
      destruct Hx as (v & e & Hv & He); congruence.
  - eexists. split; [reflexivity|]. split; [reflexivity|].
    intros [Hx|[Hx|Hx]]; try discriminate.
    destruct Hx as (v & e' & Hv & He). congruence.
Qed.

Lemma configure_rejects_witness :
  rejected_config Rail.config_without_max_distance /\
  exists w',
    configure Rail.config_without_max_distance Rail.configured = Returns false w' /\
    cost_weight_ (self w') = cost_weight_ (self Rail.configured) /\
    (hasMember Rail.config_without_max_distance "cost_weight" = false \/
     hasMember Rail.config_without_max_distance "max_distance" = false \/
     not_numeric Rail.config_without_max_distance "max_distance" ->
     max_distance_ (self w') = max_distance_ (self Rail.configured)).
Proof.
  assert (Hrej : rejected_config Rail.config_without_max_distance)
    by (right; left; reflexivity).
  split; [exact Hrej|].
  apply (configure_rejects Rail.config_without_max_distance Rail.configured Hrej).
Defined.

(** C5, as stated, fails: with a numeric [max_distance] and a weight that
    is not a double, [configure] returns false after it has overwritten
    the stored [max_distance_] (0.1 before the call, 0.5 after). *)
Lemma configure_failure_overwrites_max_distance :
  rejected_config Rail.config_with_text_weight /\
  ~ (exists w',
       configure Rail.config_with_text_weight Rail.configured = Returns false w' /\
       (max_distance_ (self w') == max_distance_ (self Rail.configured))%Q /\
       (cost_weight_ (self w') == cost_weight_ (self Rail.configured))%Q).
Proof.
  split.
  - right; right; left. exists (TypeString "high"), XmlRpcTypeError. split; reflexivity.
  - intros (w' & Hconf & Hmax & _).
    rewrite configure_cases in Hconf. simpl in Hconf.
    inversion Hconf; subst w'. simpl in Hmax. discriminate Hmax.
Qed.

(** ** [computeCosts] *)

Lemma size_add_no_overflow (a b : Z) :
  0 <= a + b < SIZE_MODULUS -> size_add a b = a + b.
Proof. intros Hab. unfold size_add. now apply Z.mod_small. Qed.

Lemma size_add_is_size_t (a b : Z) : is_size_t (size_add a b).
Proof. unfold is_size_t, size_add. now apply Z.mod_pos_bound. Qed.

Lemma coeff_write_Some (v v' : VectorXd) (t : Z) (x : Q) :
  coeff_write v t x = Some v' ->
  0 <= t < Z.of_nat (length v) /\ v' = <[Z.to_nat t := x]> v.
Proof.
  unfold coeff_write. intros Hw.
  destruct (0 <=? t) eqn:H0; destruct (t <? Z.of_nat (length v)) eqn:H1;
    simpl in Hw; try discriminate.
  inversion Hw. split; [lia | reflexivity].
Qed.


(** Every path through one iteration. *)
Lemma score_timestep_cases `{Collaborators} (parameters : MatrixXd)
    (joint_group : JointModelGroup) (t : Z) (costs : VectorXd) (w : World) :
  score_timestep parameters joint_group t costs w =
  match robot_state_ (self w), col parameters t, robot_model_ptr_ (self w) with
  | None, _, _ => Undefined NullDereference
  | Some _, None, _ => Undefined IndexOutOfRange
  | Some _, Some _, None => Undefined NullDereference
  | Some previous, Some column, Some model =>
      let state := update (setJointGroupPositions previous joint_group column) in
      let dist := distance model (group_name_ (self w)) (planning_scene_ (self w)) state in
      match coeff_write costs t (distance_cost (max_distance_ (self w)) dist) with
      | None => Undefined IndexOutOfRange
      | Some costs' =>
          Returns costs'
            {| self := set_robot_state_ (Some state) (self w);
               trace := trace w ++
                 [DistanceQuery (group_name_ (self w)) (planning_scene_ (self w))
                    state dist] |}
      end
  end.
Proof.
  unfold score_timestep, bind, this, deref, in_range, assign, emit, ret, undefined.
  destruct (robot_state_ (self w)) as [previous|]; [|reflexivity].
  destruct (col parameters t) as [column|]; [|reflexivity]. simpl.
  destruct (robot_model_ptr_ (self w)) as [model|]; [|reflexivity].
  destruct (coeff_write _ _ _); reflexivity.
Qed.

Lemma same_but_snapshot_refl `{Collaborators} (o : ObstacleDistanceGradient) :
  same_but_snapshot o o.
Proof. unfold same_but_snapshot. now destruct o. Qed.

Lemma same_but_snapshot_set `{Collaborators} (o o' : ObstacleDistanceGradient)
    (state : option RobotState) :
  same_but_snapshot (set_robot_state_ state o) o' -> same_but_snapshot o o'.
Proof. unfold same_but_snapshot. intros ->. reflexivity. Qed.

(** One iteration that completes has asked one distance and has written,
    at the index of its timestep, the cost that the policy of the
    specification gives for the answer. *)
Lemma score_timestep_follows_policy `{Collaborators} (parameters : MatrixXd)
    (joint_group : JointModelGroup) (t : Z) (costs : VectorXd) (w : World)
    (costs' : VectorXd) (w' : World) :
  score_timestep parameters joint_group t costs w = Returns costs' w' ->
  exists (model : StompRobotModel) (state : RobotState) (d c : Q),
    robot_model_ptr_ (self w) = Some model /\
    d = distance model (group_name_ (self w)) (planning_scene_ (self w)) state /\
    trace w' = trace w ++
      [DistanceQuery (group_name_ (self w)) (planning_scene_ (self w)) state d] /\
    costs' !! Z.to_nat t = Some c /\
    cost_policy_spec (max_distance_ (self w)) d c.
Proof.
  rewrite score_timestep_cases. intros Hstep.
  destruct (robot_state_ (self w)) as [previous|]; [|discriminate].
  destruct (col parameters t) as [column|]; [|discriminate].
  destruct (robot_model_ptr_ (self w)) as [model|]; [|discriminate].
  cbv zeta in Hstep.
  destruct (coeff_write costs t _) as [costs1|] eqn:Hwrite; [|discriminate].
  inversion Hstep; subst costs' w'. clear Hstep.
  apply coeff_write_Some in Hwrite. destruct Hwrite as [Hrange ->].
  do 4 eexists. split; [reflexivity|]. split; [reflexivity|].
  split; [reflexivity|]. split; [|apply distance_cost_meets_policy].
  apply list_lookup_insert_eq. lia.
Qed.

(** The loop of [computeCosts], when it runs to its end: it writes inside
    the vector, one cost per timestep at the index of the timestep, asks
    one distance per timestep, and touches nothing of the object but the
    pose snapshot. *)
Lemma for_timesteps_returns `{Collaborators} (parameters : MatrixXd)
    (joint_group : JointModelGroup) (model : StompRobotModel) (last : Z)
    (fuel : nat) :
  forall (t : Z) (costs : VectorXd) (w : World) (costs' : VectorXd) (w' : World),
    0 <= t -> last < SIZE_MODULUS ->
    robot_model_ptr_ (self w) = Some model ->
    for_timesteps fuel t last (score_timestep parameters joint_group) costs w
    = Returns costs' w' ->
    length costs' = length costs /\
    same_but_snapshot (self w) (self w') /\
    (last <= t \/ last <= Z.of_nat (length costs)) /\
    (forall i, (i < Z.to_nat t)%nat -> costs' !! i = costs !! i) /\
    exists queries,
      trace w' = trace w ++ queries /\
      length queries = Z.to_nat (last - t) /\
      forall k, (k < Z.to_nat (last - t))%nat ->
        exists q c,
          queries !! k = Some q /\
          costs' !! (Z.to_nat t + k)%nat = Some c /\
          scores parameters joint_group model (self w) (t + Z.of_nat k) q c.
Proof.
  induction fuel as [|fuel IH]; intros t costs w costs' w' Ht Hlast Hmodel Hloop;
    simpl in Hloop; destruct (t <? last) eqn:Hcond; try discriminate.
  1,3: inversion Hloop; subst costs' w';
    (split; [reflexivity|]); (split; [apply same_but_snapshot_refl|]);
    (split; [left; lia|]); (split; [reflexivity|]);
    exists []; rewrite app_nil_r; repeat split; try (simpl; lia);
    intros k Hk; lia.
  unfold bind in Hloop at 1.
  rewrite score_timestep_cases, Hmodel in Hloop.
  destruct (robot_state_ (self w)) as [previous|] eqn:Hprev; [|discriminate].
  destruct (col parameters t) as [column|] eqn:Hcol; [|discriminate].
  cbv zeta in Hloop.
  set (state := update (setJointGroupPositions previous joint_group column)) in *.
  set (dist := distance model (group_name_ (self w)) (planning_scene_ (self w)) state) in *.
  set (cost := distance_cost (max_distance_ (self w)) dist) in *.
  destruct (coeff_write costs t cost) as [costs1|] eqn:Hwrite; [|discriminate].
  apply coeff_write_Some in Hwrite. destruct Hwrite as [Hrange ->].
  assert (Hfirst : scores parameters joint_group model (self w) t
                     (DistanceQuery (group_name_ (self w)) (planning_scene_ (self w))
                        state dist) cost).
  { exists previous, column. split; [exact Hcol|]. split; reflexivity. }
  rewrite size_add_no_overflow in Hloop by lia.
  apply IH in Hloop; [|lia|lia|exact Hmodel].
  destruct Hloop as (Hlen & Hsame & Hbound & Hbelow & queries & Htrace & Hcount & Hscored).
  simpl in Hsame, Htrace, Hscored.
  rewrite length_insert in Hlen, Hbound.
  split; [exact Hlen|].
  split; [exact (same_but_snapshot_set _ _ _ Hsame)|].
  split; [right; lia|].
  split.
  { intros i Hi. rewrite Hbelow by lia. apply list_lookup_insert_ne. lia. }
  eexists (_ :: queries).
  split; [rewrite Htrace, <- app_assoc; reflexivity|].
  split; [simpl; rewrite Hcount; lia|].
  intros [|k] Hk.
  - eexists _, cost. rewrite Nat.add_0_r, Z.add_0_r.
    split; [reflexivity|]. split; [|exact Hfirst].
    rewrite Hbelow by lia. apply list_lookup_insert_eq. lia.
  - destruct (Hscored k) as (q & c & Hq & Hc & Hsc); [lia|].
    exists q, c. split; [exact Hq|].
    replace (Z.to_nat t + S k)%nat with (Z.to_nat (t + 1) + k)%nat by lia.
    split; [exact Hc|].
    replace (t + Z.of_nat (S k)) with (t + 1 + Z.of_nat k) by lia.
    exact Hsc.
Qed.

(** Every path through [computeCosts]. *)
Lemma computeCosts_cases `{Collaborators} (parameters : MatrixXd)
    (start_timestep num_timesteps iteration_number rollout_number : Z)
    (costs : VectorXd) (validity : bool) (w : World) :
  computeCosts parameters start_timestep num_timesteps iteration_number
    rollout_number costs validity w =
  match robot_state_ (self w), robot_model_ptr_ (self w) with
  | None, _ =>
      Returns (false, costs, validity)
        (logged w (name_ (self w) +:+ " Robot State has not been updated"))
  | Some _, None => Undefined NullDereference
  | Some _, Some model =>
      let last := size_add start_timestep num_timesteps in
      if cols parameters <? last then
        Returns (false, Zero num_timesteps, validity)
          (logged w "Size in the 'parameters' matrix is less than required")
      else
        match
          for_timesteps (Z.to_nat (last - start_timestep)) start_timestep last
            (score_timestep parameters (getJointModelGroup model (group_name_ (self w))))
            (Zero num_timesteps) w
        with
        | Returns costs' w' => Returns (true, costs', true) w'
        | Throws e w' => Throws e w'
        | Undefined f => Undefined f
        end
  end.
Proof.
  unfold computeCosts, bind, this. simpl.
  destruct (robot_state_ (self w)) as [state|]; [|reflexivity].
  destruct (robot_model_ptr_ (self w)) as [model|]; [|reflexivity]. simpl.
  destruct (cols parameters <? size_add start_timestep num_timesteps); [reflexivity|].
  destruct (for_timesteps _ _ _ _ _ _); reflexivity.
Qed.

Lemma computeCosts_without_snapshot `{Collaborators} (parameters : MatrixXd)
    (start_timestep num_timesteps iteration_number rollout_number : Z)
    (costs : VectorXd) (validity : bool) (w : World) :
  robot_state_ (self w) = None ->
  computeCosts parameters start_timestep num_timesteps iteration_number
    rollout_number costs validity w
  = Returns (false, costs, validity)
      (logged w (name_ (self w) +:+ " Robot State has not been updated")).
Proof. intros Hnone. now rewrite computeCosts_cases, Hnone. Qed.

(** C10: [computeCosts] writes [validity] on its successful return only,
    where it sets it to true; when it returns false, which it does for a
    missing pose snapshot or for a matrix with too few columns, [validity]
    still holds the value the caller passed. *)
Theorem computeCosts_validity `{Collaborators} (parameters : MatrixXd)
    (start_timestep num_timesteps iteration_number rollout_number : Z)
    (costs : VectorXd) (validity : bool) (w : World)
    (returned : bool) (costs' : VectorXd) (validity' : bool) (w' : World) :
  computeCosts parameters start_timestep num_timesteps iteration_number
    rollout_number costs validity w
  = Returns (returned, costs', validity') w' ->
  (returned = true -> validity' = true) /\
  (returned = false ->
   validity' = validity /\
   (robot_state_ (self w) = None \/
    cols parameters < size_add start_timestep num_timesteps)).
Proof.
  rewrite computeCosts_cases. intros Hcall.
  destruct (robot_state_ (self w)) as [state|].
  2:{ inversion Hcall; subst. split; [discriminate|]. intros _. split; [reflexivity|now left]. }
  destruct (robot_model_ptr_ (self w)) as [model|]; [|discriminate].
  cbv zeta in Hcall.
  destruct (cols parameters <? size_add start_timestep num_timesteps) eqn:Hcols.
  - inversion Hcall; subst. split; [discriminate|]. intros _.
    split; [reflexivity|]. right. lia.
  - destruct (for_timesteps _ _ _ _ _ _); inversion Hcall; subst.
    split; [reflexivity|discriminate].
Qed.

Lemma computeCosts_validity_witness :
  computeCosts Rail.short_rollout 0 3 0 0 [] false Rail.armed
  = Returns (false, Zero 3, false)
      (logged Rail.armed "Size in the 'parameters' matrix is less than required") /\
  (false = true -> false = true) /\
  (false = false ->
   false = false /\
   (robot_state_ (self Rail.armed) = None \/ cols Rail.short_rollout < size_add 0 3)).
Proof.
  assert (Hcall :
    computeCosts Rail.short_rollout 0 3 0 0 [] false Rail.armed
    = Returns (false, Zero 3, false)
        (logged Rail.armed "Size in the 'parameters' matrix is less than required"))
    by reflexivity.
  split; [exact Hcall|].
  exact (computeCosts_validity _ _ _ _ _ _ _ _ _ _ _ _ Hcall).
Defined.

(** [start_timestep + num_timesteps] wraps around.  With two columns,
    [start_timestep = 2^64 - 1] and [num_timesteps = 2] the sum is
    2^64 + 1, the code compares the columns with 1, enters no iteration
    and returns true. *)
Lemma computeCosts_accepts_wrapped_range :
  is_size_t (2 ^ 64 - 1) /\ is_size_t 2 /\
  cols Rail.short_rollout < (2 ^ 64 - 1) + 2 /\
  computeCosts Rail.short_rollout (2 ^ 64 - 1) 2 0 0 [] false Rail.armed
  = Returns (true, [0%Q; 0%Q], true) Rail.armed.
Proof.
  split; [|split; [|split]]; try (unfold is_size_t; split); try reflexivity;
    intros Hx; discriminate Hx.
Qed.

(** C1: when [computeCosts] returns true, every timestep [t] it scored
    (from [start_timestep] up to the end of the range, as the code
    computes it) has its own distance query among the queries of the
    call; the distance [d] in it is the answer of the robot model, and the
    cost stored for [t] follows from [d] and the threshold
    [D = max_distance_] by the three-branch policy: 0 when [d >= D],
    else 1 when [d < 0], else [(D - d) / D]. *)
Theorem computeCosts_costs_follow_policy `{Collaborators} (parameters : MatrixXd)
    (start_timestep num_timesteps iteration_number rollout_number : Z)
    (costs : VectorXd) (validity : bool) (w : World)
    (costs' : VectorXd) (validity' : bool) (w' : World) :
  is_size_t start_timestep ->
  computeCosts parameters start_timestep num_timesteps iteration_number
    rollout_number costs validity w
  = Returns (true, costs', validity') w' ->
  exists (model : StompRobotModel) (queries : list event),
    robot_model_ptr_ (self w) = Some model /\
    trace w' = trace w ++ queries /\
    forall t, start_timestep <= t < size_add start_timestep num_timesteps ->
      exists (state : RobotState) (d c : Q),
        queries !! Z.to_nat (t - start_timestep)
        = Some (DistanceQuery (group_name_ (self w)) (planning_scene_ (self w)) state d) /\
        d = distance model (group_name_ (self w)) (planning_scene_ (self w)) state /\
        costs' !! Z.to_nat t = Some c /\
        cost_policy_spec (max_distance_ (self w)) d c.
Proof.
  intros [Hstart Hstart']. rewrite computeCosts_cases. intros Hcall.
  destruct (robot_state_ (self w)) as [snapshot|]; [|discriminate].
  destruct (robot_model_ptr_ (self w)) as [model|] eqn:Hmodel; [|discriminate].
  cbv zeta in Hcall.
  pose proof (size_add_is_size_t start_timestep num_timesteps) as [_ Hlast].
  set (last := size_add start_timestep num_timesteps) in *.
  destruct (cols parameters <? last); [discriminate|].
  destruct (for_timesteps _ _ _ _ _ _) as [costs1 w1| |] eqn:Hloop; inversion Hcall; subst.
  apply (for_timesteps_returns _ _ model) in Hloop; [|lia|lia|exact Hmodel].
  destruct Hloop as (_ & _ & _ & _ & queries & Htrace & _ & Hscored).
  exists model, queries. split; [reflexivity|]. split; [exact Htrace|].
  intros t Ht.
  destruct (Hscored (Z.to_nat (t - start_timestep))) as (q & c & Hq & Hc & Hsc); [lia|].
  destruct Hsc as (previous & column & _ & Hsc). cbv zeta in Hsc.
  destruct Hsc as [-> ->].
  do 3 eexists. split; [exact Hq|]. split; [reflexivity|].
  split; [|apply distance_cost_meets_policy].
  rewrite <- Hc. f_equal. lia.
Qed.

(** ** Does the loop run to its end? *)





(** C2 fails on the code: with a pose snapshot, a matrix of two columns,
    [start_timestep = 1] and [num_timesteps = 1], the column check
    passes, the vector gets one coefficient, and the cost of timestep 1 is
    written at index 1, outside the vector. *)
Theorem computeCosts_offset_store_out_of_range :
  cols Rail.short_rollout >= size_add 1 1 /\
  computeCosts Rail.short_rollout 1 1 0 0 [] false Rail.armed
  = Undefined IndexOutOfRange.
Proof. split; [intros Hx; discriminate Hx | reflexivity]. Qed.

Lemma computeCosts_costs_follow_policy_witness :
  is_size_t 0 /\
  computeCosts Rail.rollout 0 4 0 0 [] false Rail.armed
  = Returns (true, Rail.rollout_costs, true) Rail.scored /\
  exists (model : StompRobotModel) (queries : list event),
    robot_model_ptr_ (self Rail.armed) = Some model /\
    trace Rail.scored = trace Rail.armed ++ queries /\
    forall t, 0 <= t < size_add 0 4 ->
      exists (state : RobotState) (d c : Q),
        queries !! Z.to_nat (t - 0)
        = Some (DistanceQuery (group_name_ (self Rail.armed))
                  (planning_scene_ (self Rail.armed)) state d) /\
        d = distance model (group_name_ (self Rail.armed))
              (planning_scene_ (self Rail.armed)) state /\
        Rail.rollout_costs !! Z.to_nat t = Some c /\
        cost_policy_spec (max_distance_ (self Rail.armed)) d c.
Proof.
  assert (Hzero : is_size_t 0) by (split; [lia | reflexivity]).
  assert (Hcall :
    computeCosts Rail.rollout 0 4 0 0 [] false Rail.armed
    = Returns (true, Rail.rollout_costs, true) Rail.scored) by reflexivity.
  split; [exact Hzero|]. split; [exact Hcall|].
  exact (computeCosts_costs_follow_policy Rail.rollout 0 4 0 0 [] false Rail.armed
           Rail.rollout_costs true Rail.scored Hzero Hcall).
Defined.

(** ** Sequences of calls and the pose snapshot *)

Lemma configure_keeps_snapshot `{Collaborators} (config : XmlRpcValue)
    (w : World) (b : bool) (w' : World) :
  configure config w = Returns b w' ->
  robot_state_ (self w') = robot_state_ (self w).
Proof.
  rewrite configure_cases. intros Hcall.
  destruct (value_of config "cost_weight") as [weight|];
    [destruct (value_of config "max_distance") as [maxd|];
     [destruct (to_double maxd); [destruct (to_double weight)|]|]|];
    inversion Hcall; reflexivity.
Qed.

Lemma initialize_keeps_snapshot `{Collaborators}
    (robot_model_ptr : option StompRobotModel) (group_name : string)
    (config : XmlRpcValue) (w : World) (b : bool) (w' : World) :
  initialize robot_model_ptr group_name config w = Returns b w' ->
  robot_state_ (self w') = robot_state_ (self w).
Proof.
  unfold initialize, bind, assign, this, deref. simpl.
  destruct robot_model_ptr as [model|]; [|discriminate]. simpl.
  destruct (hasDistanceField model); simpl.
  - intros Hcall. apply configure_keeps_snapshot in Hcall. exact Hcall.
  - intros Hcall. inversion Hcall. reflexivity.
Qed.

(** As long as no [setMotionPlanRequest] has been called since the last
    [done], the object holds no snapshot. *)
Lemma perform_all_without_snapshot `{Collaborators} (calls : list call) :
  forall (held : bool) (w : World) (returned : list (option bool)) (w' : World),
    (held = false -> robot_state_ (self w) = None) ->
    perform_all calls w = Returns returned w' ->
    snapshot_after held calls = false ->
    robot_state_ (self w') = None.
Proof.
  induction calls as [|c calls IH]; intros held w returned w' Hheld Hrun Hafter.
  - simpl in Hrun, Hafter. inversion Hrun; subst. auto.
  - simpl in Hrun. unfold bind in Hrun.
    destruct (perform c w) as [r w1| |] eqn:Hc; try discriminate.
    destruct (perform_all calls w1) as [rs w2| |] eqn:Hrest; try discriminate.
    inversion Hrun; subst. clear Hrun.
    destruct c; simpl in Hafter, Hc; unfold bind in Hc.
    + destruct (initialize _ _ _ _) as [b w0| |] eqn:Hinit; inversion Hc; subst.
      apply initialize_keeps_snapshot in Hinit.
      apply (IH held w1 rs w' ltac:(intros; rewrite Hinit; auto) Hrest Hafter).
    + destruct (configure _ _) as [b w0| |] eqn:Hconf; inversion Hc; subst.
      apply configure_keeps_snapshot in Hconf.
      apply (IH held w1 rs w' ltac:(intros; rewrite Hconf; auto) Hrest Hafter).
    + apply (IH true w1 rs w' ltac:(discriminate) Hrest Hafter).
    + destruct held.
      * apply (IH true w1 rs w' ltac:(discriminate) Hrest Hafter).
      * rewrite computeCosts_without_snapshot in Hc by auto.
        inversion Hc; subst.
        refine (IH false _ rs w' _ Hrest Hafter). simpl. auto.
    + rewrite done_returns in Hc. inversion Hc; subst.
      refine (IH false _ rs w' _ Hrest Hafter). reflexivity.
Qed.

(** C3, as the code has it: after any sequence of calls on a new object
    in which no [setMotionPlanRequest] (successful or not) comes after
    the last [done] (or at all, when there is no [done]), [computeCosts]
    returns false; it leaves [costs], [validity] and the object as they
    were and writes one line on the console. *)
Theorem computeCosts_fails_without_snapshot `{Collaborators}
    (max0 weight0 : Q) (req0 : MotionPlanRequest)
    (calls : list call) (returned : list (option bool)) (w : World)
    (parameters : MatrixXd)
    (start_timestep num_timesteps iteration_number rollout_number : Z)
    (costs : VectorXd) (validity : bool) :
  perform_all calls {| self := constructor max0 weight0 req0; trace := [] |}
  = Returns returned w ->
  snapshot_after false calls = false ->
  computeCosts parameters start_timestep num_timesteps iteration_number
    rollout_number costs validity w
  = Returns (false, costs, validity)
      (logged w (name_ (self w) +:+ " Robot State has not been updated")).
Proof.
  intros Hrun Hafter. apply computeCosts_without_snapshot.
  refine (perform_all_without_snapshot calls false _ returned w _ Hrun Hafter).
  reflexivity.
Qed.

Lemma computeCosts_fails_without_snapshot_witness :
  perform_all Rail.planning_run Rail.fresh
  = Returns [Some true; Some true; Some true; None] Rail.finished /\
  snapshot_after false Rail.planning_run = false /\
  computeCosts Rail.rollout 0 4 1 0 [] true Rail.finished
  = Returns (false, [], true)
      (logged Rail.finished
         (name_ (self Rail.finished) +:+ " Robot State has not been updated")).
Proof.
  assert (Hrun :
    perform_all Rail.planning_run Rail.fresh
    = Returns [Some true; Some true; Some true; None] Rail.finished) by reflexivity.
  assert (Hafter : snapshot_after false Rail.planning_run = false) by reflexivity.
  split; [exact Hrun|]. split; [exact Hafter|].
  exact (computeCosts_fails_without_snapshot 0 0 (Rail.request None)
           Rail.planning_run _ Rail.finished Rail.rollout 0 4 1 0 [] true Hrun Hafter).
Defined.

(** C3, as stated, fails: a [setMotionPlanRequest] that returns false
    has left a snapshot behind, and a [computeCosts] that follows it,
    before any successful [setMotionPlanRequest], returns true. *)
Lemma computeCosts_succeeds_after_refused_request :
  exists (w w' : World),
    perform_all Rail.refused_request Rail.fresh = Returns [Some true; Some false] w /\
    armed_after false Rail.refused_request [Some true; Some false] = false /\
    computeCosts Rail.rollout 0 4 0 0 [] false w
    = Returns (true, Rail.rollout_costs, true) w'.
Proof.
  do 2 eexists. split; [vm_compute; reflexivity|].
  split; [reflexivity | vm_compute; reflexivity].
Qed.


(** * Further properties of the member functions *)

(** ** [initialize] *)

(** Every path through [initialize]. *)
Lemma initialize_cases `{Collaborators} (robot_model_ptr : option StompRobotModel)
    (group_name : string) (config : XmlRpcValue) (w : World) :
  initialize robot_model_ptr group_name config w =
  match robot_model_ptr with
  | None => Undefined NullDereference
  | Some model =>
      if hasDistanceField model then
        configure config
          {| self := set_group_name_ group_name
                       (set_robot_model_ptr_ (Some model) (self w));
             trace := trace w |}
      else
        Returns false
          (logged {| self := set_robot_model_ptr_ (Some model) (self w);
                     trace := trace w |}
             "StompRobotModel has no Distance Field")
  end.
Proof.
  unfold initialize, bind, assign, this, deref. simpl.
  destruct robot_model_ptr as [model|]; [|reflexivity]. simpl.
  destruct (hasDistanceField model); reflexivity.
Qed.

(** X1: with a robot model that has no distance field, [initialize]
    returns false without looking at the configuration: whatever [config]
    holds, the thresholds and the group name keep their values; the model
    pointer has been overwritten all the same and one error is logged. *)
Theorem initialize_without_distance_field `{Collaborators} (model : StompRobotModel)
    (group_name : string) (config : XmlRpcValue) (w : World) :
  hasDistanceField model = false ->
  exists w',
    initialize (Some model) group_name config w = Returns false w' /\
    robot_model_ptr_ (self w') = Some model /\
    group_name_ (self w') = group_name_ (self w) /\
    max_distance_ (self w') = max_distance_ (self w) /\
    cost_weight_ (self w') = cost_weight_ (self w) /\
    robot_state_ (self w') = robot_state_ (self w) /\
    trace w' = trace w ++ [ROS_ERROR "StompRobotModel has no Distance Field"].
Proof.
  intros Hfield. rewrite initialize_cases, Hfield.
  eexists. split; [reflexivity|]. simpl. repeat split.
Qed.

Lemma initialize_without_distance_field_witness :
  hasDistanceField (Rail.model false) = false /\
  exists w',
    initialize (Some (Rail.model false)) "slider" Rail.config Rail.configured
    = Returns false w' /\
    robot_model_ptr_ (self w') = Some (Rail.model false) /\
    group_name_ (self w') = group_name_ (self Rail.configured) /\
    max_distance_ (self w') = max_distance_ (self Rail.configured) /\
    cost_weight_ (self w') = cost_weight_ (self Rail.configured) /\
    robot_state_ (self w') = robot_state_ (self Rail.configured) /\
    trace w' = trace Rail.configured ++ [ROS_ERROR "StompRobotModel has no Distance Field"].
Proof.
  assert (Hfield : hasDistanceField (Rail.model false) = false) by reflexivity.
  split; [exact Hfield|].
  exact (initialize_without_distance_field (Rail.model false) "slider" Rail.config
           Rail.configured Hfield).
Defined.

(** ** [configure], continued *)

Lemma configure_accepted `{Collaborators} (config : XmlRpcValue) (maxd weight : Q)
    (w : World) :
  accepted_config config maxd weight ->
  configure config w
  = Returns true
      {| self := set_cost_weight_ weight (set_max_distance_ maxd (self w));
         trace := trace w |}.
Proof.
  intros (vm & vw & Hvm & Hm & Hvw & Hw).
  rewrite configure_cases, Hvm, Hvw, Hm, Hw. reflexivity.
Qed.

Lemma configure_true_accepted `{Collaborators} (config : XmlRpcValue)
    (w w' : World) :
  configure config w = Returns true w' ->
  exists maxd weight,
    accepted_config config maxd weight /\
    w' = {| self := set_cost_weight_ weight (set_max_distance_ maxd (self w));
            trace := trace w |}.
Proof.
  rewrite configure_cases. intros Hcall.
  destruct (value_of config "cost_weight") as [vw|] eqn:Hvw; [|discriminate].
  destruct (value_of config "max_distance") as [vm|] eqn:Hvm; [|discriminate].
  destruct (to_double vm) as [maxd|] eqn:Hm; [|discriminate].
  destruct (to_double vw) as [weight|] eqn:Hw; [|discriminate].
  inversion Hcall. exists maxd, weight. split; [|reflexivity].
  exists vm, vw. auto.
Qed.

(** X2: [configure] returns true exactly when both members are present
    and convert to doubles; it has then stored the two values, changed no
    other member and logged nothing. *)
Theorem configure_true_iff_accepted `{Collaborators} (config : XmlRpcValue)
    (w w' : World) :
  configure config w = Returns true w' <->
  exists maxd weight,
    accepted_config config maxd weight /\
    w' = {| self := set_cost_weight_ weight (set_max_distance_ maxd (self w));
            trace := trace w |}.
Proof.
  split.
  - apply configure_true_accepted.
  - intros (maxd & weight & Hacc & ->). now apply configure_accepted.
Qed.

(** X3: no exception leaves [configure]: every call returns, true for an
    accepted configuration and false for a rejected one; it changes no
    member but the two thresholds, logs nothing when it returns true and
    exactly one error when it returns false. *)
Theorem configure_always_returns `{Collaborators} (config : XmlRpcValue) (w : World) :
  exists (b : bool) (w' : World),
    configure config w = Returns b w' /\
    same_but_thresholds (self w) (self w') /\
    (if b then
       (exists maxd weight, accepted_config config maxd weight) /\ trace w' = trace w
     else
       rejected_config config /\ exists msg, trace w' = trace w ++ [ROS_ERROR msg]).
Proof.
  rewrite configure_cases.
  unfold rejected_config, not_numeric, accepted_config, same_but_thresholds.
  rewrite !hasMember_value_of.
  destruct (value_of config "cost_weight") as [vw|] eqn:Hvw.
  2:{ exists false. eexists. split; [reflexivity|]. simpl.
      split; [now destruct (self w)|]. split; [now left|eauto]. }
  destruct (value_of config "max_distance") as [vm|] eqn:Hvm.
  2:{ exists false. eexists. split; [reflexivity|]. simpl.
      split; [now destruct (self w)|]. split; [right; now left|eauto]. }
  destruct (to_double vm) as [maxd|e] eqn:Hm.
  2:{ exists false. eexists. split; [reflexivity|]. simpl.
      split; [now destruct (self w)|].
      split; [right; right; right; eauto|eauto]. }
  destruct (to_double vw) as [weight|e] eqn:Hw.
  - exists true. eexists. split; [reflexivity|]. simpl.
    split; [reflexivity|]. split; [|reflexivity].
    exists maxd, weight, vm, vw. auto.
  - exists false. eexists. split; [reflexivity|]. simpl.
    split; [now destruct (self w)|].
    split; [right; right; left; eauto|eauto].
Qed.

(** X4: a configuration that has been taken can be given again: the
    second [configure] returns true and leaves the object as the first
    left it. *)
Theorem configure_idempotent `{Collaborators} (config : XmlRpcValue) (w w' : World) :
  configure config w = Returns true w' ->
  configure config w' = Returns true w'.
Proof.
  intros Hcall. apply configure_true_accepted in Hcall.
  destruct Hcall as (maxd & weight & Hacc & ->).
  now rewrite (configure_accepted config maxd weight _ Hacc).
Qed.

Lemma configure_idempotent_witness :
  configure Rail.config Rail.fresh
  = Returns true
      {| self := set_cost_weight_ 1 (set_max_distance_ (1 # 10) (self Rail.fresh));
         trace := [] |} /\
  configure Rail.config
    {| self := set_cost_weight_ 1 (set_max_distance_ (1 # 10) (self Rail.fresh));
       trace := [] |}
  = Returns true
      {| self := set_cost_weight_ 1 (set_max_distance_ (1 # 10) (self Rail.fresh));
         trace := [] |}.
Proof.
  assert (Hcall :
    configure Rail.config Rail.fresh
    = Returns true
        {| self := set_cost_weight_ 1 (set_max_distance_ (1 # 10) (self Rail.fresh));
           trace := [] |}) by reflexivity.
  split; [exact Hcall|].
  exact (configure_idempotent Rail.config Rail.fresh _ Hcall).
Defined.

(** An integer where a double is expected does not convert. *)
Example rail_integer_threshold_rejected :
  exists w',
    configure Rail.config_with_integer_threshold Rail.configured = Returns false w' /\
    self w' = self Rail.configured.
Proof. rewrite configure_cases. eexists. split; reflexivity. Qed.

(** ** [initialize], continued *)

Lemma configure_keeps_others `{Collaborators} (config : XmlRpcValue)
    (w : World) (b : bool) (w' : World) :
  configure config w = Returns b w' ->
  same_but_thresholds (self w) (self w').
Proof.
  rewrite configure_cases. unfold same_but_thresholds. intros Hcall.
  destruct (value_of config "cost_weight") as [weight|];
    [destruct (value_of config "max_distance") as [maxd|];
     [destruct (to_double maxd); [destruct (to_double weight)|]|]|];
    inversion Hcall; simpl; now destruct (self w).
Qed.

(** X5: [initialize] returns true exactly when the robot model has a
    distance field and the configuration is accepted; the object then
    holds the model, the group name and the two thresholds of the call,
    and nothing has been logged. *)
Theorem initialize_true_iff `{Collaborators} (model : StompRobotModel)
    (group_name : string) (config : XmlRpcValue) (w w' : World) :
  initialize (Some model) group_name config w = Returns true w' <->
  hasDistanceField model = true /\
  exists maxd weight,
    accepted_config config maxd weight /\
    w' = {| self := set_cost_weight_ weight
                      (set_max_distance_ maxd
                         (set_group_name_ group_name
                            (set_robot_model_ptr_ (Some model) (self w))));
            trace := trace w |}.
Proof.
  rewrite initialize_cases. split.
  - destruct (hasDistanceField model); [|discriminate].
    intros Hcall. split; [reflexivity|].
    apply configure_true_accepted in Hcall. exact Hcall.
  - intros (-> & maxd & weight & Hacc & ->).
    now rewrite (configure_accepted config maxd weight _ Hacc).
Qed.

(** X6: whenever [initialize] returns, with true or with false, the
    object holds the model pointer of the call, which is not null; the
    pose snapshot, the planning scene, the plan request and the name are
    as before. *)
Theorem initialize_stores_model `{Collaborators}
    (robot_model_ptr : option StompRobotModel) (group_name : string)
    (config : XmlRpcValue) (w : World) (b : bool) (w' : World) :
  initialize robot_model_ptr group_name config w = Returns b w' ->
  robot_model_ptr <> None /\
  robot_model_ptr_ (self w') = robot_model_ptr /\
  robot_state_ (self w') = robot_state_ (self w) /\
  planning_scene_ (self w') = planning_scene_ (self w) /\
  plan_request_ (self w') = plan_request_ (self w) /\
  name_ (self w') = name_ (self w).
Proof.
  rewrite initialize_cases.
  destruct robot_model_ptr as [model|]; [|discriminate].
  destruct (hasDistanceField model).
  - intros Hcall. split; [discriminate|].
    apply configure_keeps_others in Hcall.
    unfold same_but_thresholds in Hcall. simpl in Hcall.
    rewrite Hcall. simpl. repeat split.
  - intros Hcall. inversion Hcall; subst. simpl. split; [discriminate|]. repeat split.
Qed.

Lemma initialize_stores_model_witness :
  initialize (Some (Rail.model true)) "slider" Rail.config_without_max_distance Rail.armed
  = Returns false
      (logged {| self := set_robot_model_ptr_ (Some (Rail.model true)) (self Rail.armed);
                 trace := [] |}
         "ObstacleDistanceGradient failed to find the 'max_distance' parameter") /\
  Some (Rail.model true) <> None /\
  robot_model_ptr_ (self Rail.armed) = Some (Rail.model true) /\
  robot_state_ (self Rail.armed) = robot_state_ (self Rail.armed) /\
  planning_scene_ (self Rail.armed) = planning_scene_ (self Rail.armed) /\
  plan_request_ (self Rail.armed) = plan_request_ (self Rail.armed) /\
  name_ (self Rail.armed) = name_ (self Rail.armed).
Proof.
  assert (Hcall :
    initialize (Some (Rail.model true)) "slider" Rail.config_without_max_distance
      Rail.armed
    = Returns false
        (logged {| self := set_robot_model_ptr_ (Some (Rail.model true)) (self Rail.armed);
                   trace := [] |}
           "ObstacleDistanceGradient failed to find the 'max_distance' parameter"))
    by reflexivity.
  split; [exact Hcall|].
  exact (initialize_stores_model _ _ _ _ _ _ Hcall).
Defined.

(** ** [computeCosts], continued *)

(** The loop never leaves the object without a snapshot. *)
Lemma for_timesteps_keeps_snapshot `{Collaborators} (parameters : MatrixXd)
    (joint_group : JointModelGroup) (last : Z) (fuel : nat) :
  forall (t : Z) (costs : VectorXd) (w : World) (costs' : VectorXd) (w' : World),
    for_timesteps fuel t last (score_timestep parameters joint_group) costs w
    = Returns costs' w' ->
    robot_state_ (self w) <> None ->
    robot_state_ (self w') <> None.
Proof.
  induction fuel as [|fuel IH]; intros t costs w costs' w' Hloop Hstate;
    simpl in Hloop; destruct (t <? last); try discriminate;
    try (inversion Hloop; subst; exact Hstate).
  unfold bind in Hloop at 1. rewrite score_timestep_cases in Hloop.
  destruct (robot_state_ (self w)) as [previous|]; [|discriminate].
  destruct (col parameters t) as [column|]; [|discriminate].
  destruct (robot_model_ptr_ (self w)) as [model|]; [|discriminate].
  cbv zeta in Hloop.
  destruct (coeff_write costs t _) as [costs1|]; [|discriminate].
  apply IH in Hloop; [exact Hloop|]. simpl. discriminate.
Qed.






(** X10: an empty range.  With [num_timesteps = 0] and a start inside the
    matrix, whatever the start, [computeCosts] returns true with an empty
    vector; it asks no distance, logs nothing and leaves the object, the
    snapshot included, as it was. *)
Theorem computeCosts_empty_range `{Collaborators} (parameters : MatrixXd)
    (start_timestep iteration_number rollout_number : Z)
    (costs : VectorXd) (validity : bool) (w : World) :
  robot_state_ (self w) <> None ->
  robot_model_ptr_ (self w) <> None ->
  is_size_t start_timestep ->
  start_timestep <= cols parameters ->
  computeCosts parameters start_timestep 0 iteration_number rollout_number
    costs validity w
  = Returns (true, [], true) w.
Proof.
  intros Hstate Hmodel [Hstart Hstart'] Hcols. rewrite computeCosts_cases.
  destruct (robot_state_ (self w)) as [snapshot|]; [|congruence].
  destruct (robot_model_ptr_ (self w)) as [model|]; [|congruence].
  cbv zeta. rewrite size_add_no_overflow by lia. rewrite Z.add_0_r.
  destruct (cols parameters <? start_timestep) eqn:Hnarrow; [lia|].
  replace (start_timestep - start_timestep) with 0 by lia. simpl.
  rewrite Z.ltb_irrefl. reflexivity.
Qed.

Lemma computeCosts_empty_range_witness :
  robot_state_ (self Rail.armed) <> None /\
  robot_model_ptr_ (self Rail.armed) <> None /\
  is_size_t 3 /\
  3 <= cols Rail.rollout /\
  computeCosts Rail.rollout 3 0 0 0 [1%Q] false Rail.armed
  = Returns (true, [], true) Rail.armed.
Proof.
  assert (Hstate : robot_state_ (self Rail.armed) <> None) by discriminate.
  assert (Hmodel : robot_model_ptr_ (self Rail.armed) <> None) by discriminate.
  assert (Hstart : is_size_t 3) by (split; [lia | reflexivity]).
  assert (Hcols : 3 <= cols Rail.rollout) by (intros Hx; discriminate Hx).
  repeat (split; [assumption|]).
  exact (computeCosts_empty_range Rail.rollout 3 0 0 [1%Q] false Rail.armed
           Hstate Hmodel Hstart Hcols).
Defined.

(** With the fuel [computeCosts] gives it, the loop ends: it runs to its
    end or stops at a null pointer or at an index out of range. *)
Lemma for_timesteps_ends `{Collaborators} (parameters : MatrixXd)
    (joint_group : JointModelGroup) (last : Z) (fuel : nat) :
  forall (t : Z) (costs : VectorXd) (w : World),
    0 <= t -> last < SIZE_MODULUS -> (Z.to_nat (last - t) <= fuel)%nat ->
    match for_timesteps fuel t last (score_timestep parameters joint_group) costs w with
    | Returns _ _ => True
    | Throws _ _ => False
    | Undefined f => f = NullDereference \/ f = IndexOutOfRange
    end.
Proof.
  induction fuel as [|fuel IH]; intros t costs w Ht Hlast Hfuel;
    simpl; destruct (t <? last) eqn:Hcond; try exact I; try lia.
  unfold bind at 1. rewrite score_timestep_cases.
  destruct (robot_state_ (self w)) as [previous|]; [|now left].
  destruct (col parameters t) as [column|]; [|now right].
  destruct (robot_model_ptr_ (self w)) as [model|]; [|now left].
  cbv zeta.
  destruct (coeff_write costs t _) as [costs1|]; [|now right].
  rewrite size_add_no_overflow by lia.
  apply IH; lia.
Qed.

(** X13: what a call of [computeCosts] that returns has done.  It has
    changed no member but the pose snapshot.  When it returns true the
    trace has grown by one distance query for each timestep of the range
    and by nothing else; when it returns false the object is untouched,
    the trace has grown by one error line, and [costs] is untouched or
    all zeros. *)
Theorem computeCosts_effects `{Collaborators} (parameters : MatrixXd)
    (start_timestep num_timesteps iteration_number rollout_number : Z)
    (costs : VectorXd) (validity : bool) (w : World)
    (b : bool) (costs' : VectorXd) (validity' : bool) (w' : World) :
  is_size_t start_timestep ->
  computeCosts parameters start_timestep num_timesteps iteration_number
    rollout_number costs validity w
  = Returns (b, costs', validity') w' ->
  same_but_snapshot (self w) (self w') /\
  if b then
    exists queries,
      trace w' = trace w ++ queries /\
      length queries
      = Z.to_nat (size_add start_timestep num_timesteps - start_timestep) /\
      Forall (fun e => is_distance_query e = true) queries
  else
    self w' = self w /\
    (exists msg, trace w' = trace w ++ [ROS_ERROR msg]) /\
    (costs' = costs \/ costs' = Zero num_timesteps).
Proof.
  intros [Hstart Hstart']. rewrite computeCosts_cases. intros Hcall.
  destruct (robot_state_ (self w)) as [snapshot|].
  2:{ inversion Hcall; subst. simpl.
      split; [apply same_but_snapshot_refl|]. split; [reflexivity|].
      split; [eauto|now left]. }
  destruct (robot_model_ptr_ (self w)) as [model|] eqn:Hmodel; [|discriminate].
  cbv zeta in Hcall.
  pose proof (size_add_is_size_t start_timestep num_timesteps) as [_ Hlast].
  destruct (cols parameters <? _).
  { inversion Hcall; subst. simpl.
    split; [apply same_but_snapshot_refl|]. split; [reflexivity|].
    split; [eauto|now right]. }
  destruct (for_timesteps _ _ _ _ _ _) as [costs1 w1| |] eqn:Hloop;
    inversion Hcall; subst.
  apply (for_timesteps_returns _ _ model) in Hloop; [|lia|lia|exact Hmodel].
  destruct Hloop as (_ & Hsame & _ & _ & queries & Htrace & Hcount & Hscored).
  split; [exact Hsame|].
  exists queries. split; [exact Htrace|]. split; [exact Hcount|].
  apply Forall_lookup_2. intros i e He.
  destruct (Hscored i) as (q & c & Hq & _ & Hsc).
  { apply lookup_lt_Some in He. lia. }
  rewrite He in Hq. inversion Hq; subst q.
  destruct Hsc as (previous & column & _ & Hsc). cbv zeta in Hsc.
  destruct Hsc as [-> _]. reflexivity.
Qed.

Lemma computeCosts_effects_witness :
  is_size_t 0 /\
  computeCosts Rail.rollout 0 4 0 0 [] false Rail.armed
  = Returns (true, Rail.rollout_costs, true) Rail.scored /\
  same_but_snapshot (self Rail.armed) (self Rail.scored) /\
  exists queries,
    trace Rail.scored = trace Rail.armed ++ queries /\
    length queries = Z.to_nat (size_add 0 4 - 0) /\
    Forall (fun e => is_distance_query e = true) queries.
Proof.
  assert (Hzero : is_size_t 0) by (split; [lia | reflexivity]).
  assert (Hcall :
    computeCosts Rail.rollout 0 4 0 0 [] false Rail.armed
    = Returns (true, Rail.rollout_costs, true) Rail.scored) by reflexivity.
  split; [exact Hzero|]. split; [exact Hcall|].
  exact (computeCosts_effects Rail.rollout 0 4 0 0 [] false Rail.armed
           true Rail.rollout_costs true Rail.scored Hzero Hcall).
Defined.

(** ** [setMotionPlanRequest], continued *)

(** X14: a planning request starts afresh.  What [setMotionPlanRequest]
    returns and the object it leaves depend on the model, the name, the
    group name and the thresholds of the object and on the arguments
    only: nothing of the planning scene, of the plan request or of the
    pose snapshot held at the call survives.  The model, the name, the
    group name and the thresholds are not changed. *)
Theorem setMotionPlanRequest_starts_afresh `{Collaborators}
    (planning_scene : option PlanningScene) (req : MotionPlanRequest)
    (config : StompConfiguration) (error_code1 error_code2 : MoveItErrorCodes)
    (w1 w2 : World) :
  set_robot_state_ None (set_plan_request_ req (set_planning_scene_ None (self w1)))
  = set_robot_state_ None (set_plan_request_ req (set_planning_scene_ None (self w2))) ->
  exists (converted : bool) (w1' w2' : World),
    setMotionPlanRequest planning_scene req config error_code1 w1
    = Returns (converted, SUCCESS) w1' /\
    setMotionPlanRequest planning_scene req config error_code2 w2
    = Returns (converted, SUCCESS) w2' /\
    self w1' = self w2' /\
    robot_model_ptr_ (self w1') = robot_model_ptr_ (self w1) /\
    name_ (self w1') = name_ (self w1) /\
    group_name_ (self w1') = group_name_ (self w1) /\
    max_distance_ (self w1') = max_distance_ (self w1) /\
    cost_weight_ (self w1') = cost_weight_ (self w1).
Proof.
  intros Hsame. rewrite !setMotionPlanRequest_returns.
  assert (Hmodel : robot_model_ptr_ (self w1) = robot_model_ptr_ (self w2)).
  { apply (f_equal robot_model_ptr_) in Hsame. exact Hsame. }
  rewrite <- Hmodel.
  do 3 eexists. split; [reflexivity|]. split; [reflexivity|]. simpl.
  split; [|repeat split].
  destruct (self w1), (self w2). simpl in *. inversion Hsame. reflexivity.
Qed.

Lemma setMotionPlanRequest_starts_afresh_witness :
  set_robot_state_ None
    (set_plan_request_ (Rail.request (Some [1%Q]))
       (set_planning_scene_ None (self Rail.configured)))
  = set_robot_state_ None
      (set_plan_request_ (Rail.request (Some [1%Q]))
         (set_planning_scene_ None (self Rail.armed))) /\
  exists (converted : bool) (w1' w2' : World),
    setMotionPlanRequest (Some (Rail.wall 2)) (Rail.request (Some [1%Q]))
      Rail.stomp_config SUCCESS Rail.configured
    = Returns (converted, SUCCESS) w1' /\
    setMotionPlanRequest (Some (Rail.wall 2)) (Rail.request (Some [1%Q]))
      Rail.stomp_config FAILURE Rail.armed
    = Returns (converted, SUCCESS) w2' /\
    self w1' = self w2' /\
    robot_model_ptr_ (self w1') = robot_model_ptr_ (self Rail.configured) /\
    name_ (self w1') = name_ (self Rail.configured) /\
    group_name_ (self w1') = group_name_ (self Rail.configured) /\
    max_distance_ (self w1') = max_distance_ (self Rail.configured) /\
    cost_weight_ (self w1') = cost_weight_ (self Rail.configured).
Proof.
  assert (Hsame :
    set_robot_state_ None
      (set_plan_request_ (Rail.request (Some [1%Q]))
         (set_planning_scene_ None (self Rail.configured)))
    = set_robot_state_ None
        (set_plan_request_ (Rail.request (Some [1%Q]))
           (set_planning_scene_ None (self Rail.armed)))) by reflexivity.
  split; [exact Hsame|].
  exact (setMotionPlanRequest_starts_afresh (Some (Rail.wall 2))
           (Rail.request (Some [1%Q])) Rail.stomp_config SUCCESS FAILURE
           Rail.configured Rail.armed Hsame).
Defined.

(** ** Sequences of calls, continued *)

Lemma computeCosts_keeps_snapshot `{Collaborators} (parameters : MatrixXd)
    (start_timestep num_timesteps iteration_number rollout_number : Z)
    (costs : VectorXd) (validity : bool) (w : World)
    (r : bool * VectorXd * bool) (w' : World) :
  computeCosts parameters start_timestep num_timesteps iteration_number
    rollout_number costs validity w
  = Returns r w' ->
  robot_state_ (self w) <> None ->
  robot_state_ (self w') <> None.
Proof.
  rewrite computeCosts_cases. intros Hcall Hstate.
  destruct (robot_state_ (self w)) as [snapshot|] eqn:Hsnap; [|congruence].
  destruct (robot_model_ptr_ (self w)) as [model|]; [|discriminate].
  cbv zeta in Hcall.
  destruct (cols parameters <? _).
  { inversion Hcall; subst. simpl. congruence. }
  destruct (for_timesteps _ _ _ _ _ _) as [costs1 w1| |] eqn:Hloop;
    inversion Hcall; subst.
  apply for_timesteps_keeps_snapshot in Hloop; [exact Hloop|congruence].
Qed.

(** Once a [setMotionPlanRequest] has returned and no [done] has
    followed, the object holds a snapshot. *)
Lemma perform_all_with_snapshot `{Collaborators} (calls : list call) :
  forall (held : bool) (w : World) (returned : list (option bool)) (w' : World),
    (held = true -> robot_state_ (self w) <> None) ->
    perform_all calls w = Returns returned w' ->
    snapshot_after held calls = true ->
    robot_state_ (self w') <> None.
Proof.
  induction calls as [|c calls IH]; intros held w returned w' Hheld Hrun Hafter.
  - simpl in Hrun, Hafter. inversion Hrun; subst. auto.
  - simpl in Hrun. unfold bind in Hrun.
    destruct (perform c w) as [r w1| |] eqn:Hc; try discriminate.
    destruct (perform_all calls w1) as [rs w2| |] eqn:Hrest; try discriminate.
    inversion Hrun; subst. clear Hrun.
    destruct c; simpl in Hafter, Hc; unfold bind in Hc.
    + destruct (initialize _ _ _ _) as [b w0| |] eqn:Hinit; inversion Hc; subst.
      apply initialize_keeps_snapshot in Hinit.
      refine (IH held w1 rs w' _ Hrest Hafter). rewrite Hinit. exact Hheld.
    + destruct (configure _ _) as [b w0| |] eqn:Hconf; inversion Hc; subst.
      apply configure_keeps_snapshot in Hconf.
      refine (IH held w1 rs w' _ Hrest Hafter). rewrite Hconf. exact Hheld.
    + rewrite setMotionPlanRequest_returns in Hc. inversion Hc; subst.
      refine (IH true _ rs w' _ Hrest Hafter). simpl. discriminate.
    + destruct (computeCosts _ _ _ _ _ _ _ _) as [r0 w0| |] eqn:Hcost;
        inversion Hc; subst.
      refine (IH held w1 rs w' _ Hrest Hafter). intros Hh.
      apply (computeCosts_keeps_snapshot _ _ _ _ _ _ _ _ _ _ Hcost). auto.
    + rewrite done_returns in Hc. inversion Hc; subst.
      refine (IH false _ rs w' _ Hrest Hafter). discriminate.
Qed.

(** X15: after any sequence of calls on a new object that runs to its
    end, the object holds a pose snapshot exactly when a
    [setMotionPlanRequest] has been called, with whatever outcome, after
    the last [done]. *)
Theorem snapshot_held_iff `{Collaborators}
    (max0 weight0 : Q) (req0 : MotionPlanRequest)
    (calls : list call) (returned : list (option bool)) (w : World) :
  perform_all calls {| self := constructor max0 weight0 req0; trace := [] |}
  = Returns returned w ->
  (robot_state_ (self w) <> None <-> snapshot_after false calls = true).
Proof.
  intros Hrun. split.
  - intros Hstate. destruct (snapshot_after false calls) eqn:Hafter; [reflexivity|].
    exfalso. apply Hstate.
    refine (perform_all_without_snapshot calls false _ returned w _ Hrun Hafter).
    reflexivity.
  - intros Hafter.
    refine (perform_all_with_snapshot calls false _ returned w _ Hrun Hafter).
    discriminate.
Qed.

Lemma snapshot_held_iff_witness :
  perform_all Rail.refused_request Rail.fresh
  = Returns [Some true; Some false]
      (logged
         {| self := set_robot_state_ (Some (Rail.slider []))
                      (set_plan_request_ (Rail.request None)
                         (set_planning_scene_ (Some (Rail.wall 1)) (self Rail.configured)));
            trace := [] |}
         "ObstacleDistanceGradient Failed to get current robot state from request") /\
  (robot_state_
     (set_robot_state_ (Some (Rail.slider []))
        (set_plan_request_ (Rail.request None)
           (set_planning_scene_ (Some (Rail.wall 1)) (self Rail.configured)))) <> None
   <-> snapshot_after false Rail.refused_request = true).
Proof.
  assert (Hrun :
    perform_all Rail.refused_request Rail.fresh
    = Returns [Some true; Some false]
        (logged
           {| self := set_robot_state_ (Some (Rail.slider []))
                        (set_plan_request_ (Rail.request None)
                           (set_planning_scene_ (Some (Rail.wall 1))
                              (self Rail.configured)));
              trace := [] |}
           "ObstacleDistanceGradient Failed to get current robot state from request"))
    by reflexivity.
  split; [exact Hrun|].
  exact (snapshot_held_iff 0 0 (Rail.request None) Rail.refused_request _ _ Hrun).
Defined.





(** * The loop body on doubles with NaN, infinities and rounding *)

Lemma exact_rounds_to_nearest : rounds_to_nearest exact.
Proof. split; unfold exact; [intros p q Hpq; exact Hpq | reflexivity | reflexivity]. Qed.

Lemma to_grid_rounds_to_nearest : rounds_to_nearest to_grid.
Proof.
  split; [|reflexivity|reflexivity].
  intros p q Hpq. unfold to_grid.
  apply Qmult_le_compat_r; [|intros Hx; discriminate Hx].
  rewrite <- Zle_Qle. apply Qfloor_resp_le. lra.
Qed.

(** Rounding absorbs a small distance: on the grid of 1/1024, a distance
    of 1/4096 from the obstacle costs as much as touching it. *)
Example to_grid_absorbs_small_distance :
  distance_cost_ieee to_grid (Finite 1) (Finite (1 # 4096))
  = distance_cost_ieee to_grid (Finite 1) (Finite 0).
Proof. reflexivity. Qed.

(** Without rounding and on finite values, the loop body is
    [distance_cost]. *)
Lemma distance_cost_ieee_exact (D d : Q) :
  distance_cost_ieee exact (Finite D) (Finite d) = Finite (distance_cost D d).
Proof.
  unfold distance_cost_ieee, distance_cost, double_ge, double_lt. simpl.
  destruct (Qle_bool D d) eqn:HD; [reflexivity|].
  destruct (Qle_bool 0 d) eqn:H0; simpl; [|reflexivity].
  destruct (Qeq_bool D 0) eqn:Hz; [|reflexivity].
  exfalso. apply Qeq_bool_iff in Hz. apply Qle_bool_iff in H0.
  assert (~ (D <= d)%Q) by (rewrite <- Qle_bool_iff; congruence). lra.
Qed.

Lemma Qle_bool_false (p q : Q) : Qle_bool p q = false <-> (q < p)%Q.
Proof.
  split; intros Hx.
  - apply Qnot_le_lt. intros Hle. apply Qle_bool_iff in Hle. congruence.
  - destruct (Qle_bool p q) eqn:E; [|reflexivity]. apply Qle_bool_iff in E. lra.
Qed.

(** Between 0 and a positive threshold the code subtracts and divides,
    and never by zero. *)
Lemma distance_cost_ieee_ramp (round : Q -> Q) (D d : Q) :
  (0 <= d)%Q -> (d < D)%Q ->
  distance_cost_ieee round (Finite D) (Finite d)
  = Finite (round (round (D - d) / D)%Q).
Proof.
  intros H0 HD. unfold distance_cost_ieee. simpl.
  apply Qle_bool_false in HD. rewrite HD.
  apply Qle_bool_iff in H0. rewrite H0. simpl.
  destruct (Qeq_bool D 0) eqn:Hz; [|reflexivity].
  exfalso. apply Qeq_bool_iff in Hz. apply Qle_bool_false in HD.
  apply Qle_bool_iff in H0. lra.
Qed.

Lemma round_proper (round : Q -> Q) (p q : Q) :
  rounds_to_nearest round -> (p == q)%Q -> (round p == round q)%Q.
Proof.
  intros [Hmono _ _] Hpq. apply Qle_antisym; apply Hmono; lra.
Qed.

(** The rounded quotient of the rounded difference stays between 0 and 1. *)
Lemma rounded_ramp_bounds (round : Q -> Q) (D d : Q) :
  rounds_to_nearest round -> (round D == D)%Q ->
  (0 <= d)%Q -> (d < D)%Q ->
  (0 <= round (round (D - d) / D) <= 1)%Q.
Proof.
  intros Hround HD H0 Hlt.
  pose proof (round_monotone round Hround) as Hmono.
  pose proof (round_zero round Hround) as Hzero.
  pose proof (round_one round Hround) as Hone.
  assert (Hx : (0 <= round (D - d) <= D)%Q).
  { split.
    - rewrite <- Hzero. apply Hmono. lra.
    - rewrite <- HD at 2. apply Hmono. lra. }
  split.
  - rewrite <- Hzero. apply Hmono. apply Qle_shift_div_l; lra.
  - rewrite <- Hone. apply Hmono. apply Qle_shift_div_r; lra.
Qed.

(** The rounded ramp does not rise with the distance. *)
Lemma rounded_ramp_antitone (round : Q -> Q) (D d1 d2 : Q) :
  rounds_to_nearest round -> (0 < D)%Q -> (d1 <= d2)%Q ->
  (round (round (D - d2) / D) <= round (round (D - d1) / D))%Q.
Proof.
  intros Hround HD Hle.
  pose proof (round_monotone round Hround) as Hmono.
  apply Hmono. apply Qmult_le_compat_r.
  - apply Hmono. lra.
  - apply Qlt_le_weak, Qinv_lt_0_compat, HD.
Qed.

(** For a finite positive threshold that is a double, the cost of a
    distance that is not NaN lies between 0 and 1. *)
Lemma distance_cost_ieee_bounds (round : Q -> Q) (D : Q) (d : double) :
  rounds_to_nearest round -> (0 < D)%Q -> (round D == D)%Q ->
  d <> NaN ->
  in_unit_interval (distance_cost_ieee round (Finite D) d).
Proof.
  intros Hround HD Hrep Hnan. unfold in_unit_interval.
  destruct d as [|[|]|q]; [congruence| | |].
  - split; reflexivity.
  - split; reflexivity.
  - destruct (Qlt_le_dec q D) as [Hlt|Hge].
    + destruct (Qlt_le_dec q 0) as [Hneg|Hpos].
      * unfold distance_cost_ieee. simpl.
        apply Qle_bool_false in Hlt. rewrite Hlt.
        apply Qle_bool_false in Hneg. rewrite Hneg. simpl. split; reflexivity.
      * rewrite distance_cost_ieee_ramp by assumption. simpl.
        destruct (rounded_ramp_bounds round D q Hround Hrep Hpos Hlt) as [Hlo Hhi].
        split; apply Qle_bool_iff; assumption.
    + unfold distance_cost_ieee. simpl.
      apply Qle_bool_iff in Hge. rewrite Hge. split; reflexivity.
Qed.

Lemma distance_cost_ieee_away (round : Q -> Q) (D d : double) :
  ieee_ge d D = true -> distance_cost_ieee round D d = Finite 0.
Proof. intros Hge. unfold distance_cost_ieee. now rewrite Hge. Qed.

Lemma ieee_ge_not_nan (a b : double) : ieee_ge a b = true -> a <> NaN /\ b <> NaN.
Proof. destruct a as [|[|]|p], b as [|[|]|q]; simpl; intros Hx; split; congruence. Qed.

(** For a finite positive threshold that is a double, a larger distance
    never costs more. *)
Lemma distance_cost_ieee_antitone (round : Q -> Q) (D : Q) (d1 d2 : double) :
  rounds_to_nearest round -> (0 < D)%Q -> (round D == D)%Q ->
  ieee_ge d2 d1 = true ->
  ieee_ge (distance_cost_ieee round (Finite D) d1)
          (distance_cost_ieee round (Finite D) d2) = true.
Proof.
  intros Hround HD Hrep Hge.
  destruct (ieee_ge_not_nan _ _ Hge) as [Hn2 Hn1].
  pose proof (distance_cost_ieee_bounds round D d1 Hround HD Hrep Hn1) as [Hlo1 Hhi1].
  pose proof (distance_cost_ieee_bounds round D d2 Hround HD Hrep Hn2) as [Hlo2 Hhi2].
  destruct d1 as [|[|]|q1], d2 as [|[|]|q2]; simpl in Hge; try discriminate;
    try congruence; try exact Hlo1; try exact Hhi2; try reflexivity.
  apply Qle_bool_iff in Hge.
  destruct (Qlt_le_dec q2 D) as [Hlt2|Hge2].
  - destruct (Qlt_le_dec q1 0) as [Hneg1|Hpos1].
    + assert (Hcost1 : distance_cost_ieee round (Finite D) (Finite q1) = Finite 1).
      { unfold distance_cost_ieee. simpl.
        assert (Hlt1 : (q1 < D)%Q) by lra.
        apply Qle_bool_false in Hlt1. rewrite Hlt1.
        apply Qle_bool_false in Hneg1. rewrite Hneg1. reflexivity. }
      rewrite Hcost1. exact Hhi2.
    + rewrite (distance_cost_ieee_ramp round D q1), (distance_cost_ieee_ramp round D q2)
        by lra.
      simpl. apply Qle_bool_iff. now apply rounded_ramp_antitone.
  - rewrite (distance_cost_ieee_away round (Finite D) (Finite q2)).
    + exact Hlo1.
    + simpl. now apply Qle_bool_iff.
Qed.

(** C6, as the code has it: for a finite threshold [D > 0] and every
    distance that is not NaN, infinite distances included, the cost lies
    between 0 and 1 and does not rise when the distance grows; the cost
    of distance 0 is 1 and the cost of every distance [d >= D] is 0.
    This holds for every rounding that keeps the order and leaves 0, 1
    and [D] alone, as rounding to nearest does for a double [D]. *)
Theorem distance_cost_ieee_normalized (round : Q -> Q) (D : Q) :
  rounds_to_nearest round -> (0 < D)%Q -> (round D == D)%Q ->
  (forall d, d <> NaN -> in_unit_interval (distance_cost_ieee round (Finite D) d)) /\
  (forall d1 d2,
     ieee_ge d2 d1 = true ->
     ieee_ge (distance_cost_ieee round (Finite D) d1)
             (distance_cost_ieee round (Finite D) d2) = true) /\
  ieee_same (distance_cost_ieee round (Finite D) (Finite 0)) (Finite 1) /\
  (forall d, ieee_ge d (Finite D) = true ->
             distance_cost_ieee round (Finite D) d = Finite 0).
Proof.
  intros Hround HD Hrep. repeat split.
  - now apply distance_cost_ieee_bounds.
  - now apply distance_cost_ieee_bounds.
  - intros d1 d2. now apply distance_cost_ieee_antitone.
  - rewrite distance_cost_ieee_ramp by lra. simpl.
    transitivity (round 1%Q); [|exact (round_one round Hround)].
    apply round_proper; [exact Hround|].
    assert (Hsub : (round (D - 0) == D)%Q).
    { rewrite <- Hrep at 2. apply round_proper; [exact Hround|]. ring. }
    rewrite Hsub. field. lra.
  - intros d. apply distance_cost_ieee_away.
Qed.

Lemma distance_cost_ieee_normalized_witness :
  rounds_to_nearest to_grid /\ (0 < 1 # 8)%Q /\ (to_grid (1 # 8) == 1 # 8)%Q /\
  (forall d, d <> NaN ->
             in_unit_interval (distance_cost_ieee to_grid (Finite (1 # 8)) d)) /\
  (forall d1 d2,
     ieee_ge d2 d1 = true ->
     ieee_ge (distance_cost_ieee to_grid (Finite (1 # 8)) d1)
             (distance_cost_ieee to_grid (Finite (1 # 8)) d2) = true) /\
  ieee_same (distance_cost_ieee to_grid (Finite (1 # 8)) (Finite 0)) (Finite 1) /\
  (forall d, ieee_ge d (Finite (1 # 8)) = true ->
             distance_cost_ieee to_grid (Finite (1 # 8)) d = Finite 0).
Proof.
  assert (HD : (0 < 1 # 8)%Q) by reflexivity.
  assert (Hrep : (to_grid (1 # 8) == 1 # 8)%Q) by reflexivity.
  split; [exact to_grid_rounds_to_nearest|]. split; [exact HD|]. split; [exact Hrep|].
  exact (distance_cost_ieee_normalized to_grid (1 # 8) to_grid_rounds_to_nearest HD Hrep).
Defined.

(** C6, as stated, fails on doubles: the threshold +infinity is greater
    than 0 and the cost of distance 0 under it is NaN; and under the
    threshold 0.1 the cost of a NaN distance is NaN.  NaN is neither
    between 0 and 1 nor equal to 1. *)
Lemma distance_cost_ieee_not_a_number :
  ieee_lt (Finite 0) (Infinity false) = true /\
  (forall round, distance_cost_ieee round (Infinity false) (Finite 0) = NaN) /\
  ieee_lt (Finite 0) (Finite (1 # 10)) = true /\
  (forall round, distance_cost_ieee round (Finite (1 # 10)) NaN = NaN) /\
  ~ in_unit_interval NaN /\
  ~ ieee_same NaN (Finite 1).
Proof.
  repeat split; try reflexivity.
  - intros [Hx _]. discriminate Hx.
  - intros Hx. exact Hx.
Qed.

(** When the loop body yields NaN. *)
Lemma distance_cost_ieee_nan_iff (round : Q -> Q) (D d : double) :
  distance_cost_ieee round D d = NaN <->
  d = NaN \/
  (D = NaN /\ ieee_lt d (Finite 0) = false) \/
  (D = Infinity false /\ exists q, d = Finite q /\ (0 <= q)%Q).
Proof.
  split.
  - intros Hnan.
    destruct d as [|[|]|q]; [now left| | |];
      destruct D as [|[|]|D]; try discriminate Hnan;
      try (right; left; split; reflexivity).
    + right; left. split; [reflexivity|].
      unfold distance_cost_ieee in Hnan. simpl in *.
      destruct (negb (Qle_bool 0 q)); [discriminate Hnan|reflexivity].
    + right; right. split; [reflexivity|]. exists q. split; [reflexivity|].
      unfold distance_cost_ieee in Hnan. simpl in Hnan.
      destruct (Qle_bool 0 q) eqn:H0; [now apply Qle_bool_iff|discriminate Hnan].
    + exfalso. unfold distance_cost_ieee in Hnan. simpl in Hnan.
      destruct (Qle_bool D q) eqn:HD; [discriminate Hnan|].
      destruct (Qle_bool 0 q) eqn:H0; simpl in Hnan; [|discriminate Hnan].
      destruct (Qeq_bool D 0) eqn:Hz; [|discriminate Hnan].
      apply Qeq_bool_iff in Hz. apply Qle_bool_false in HD. apply Qle_bool_iff in H0. lra.
  - intros [->|[[-> Hlt]|[-> (q & -> & H0)]]].
    + unfold distance_cost_ieee. destruct D as [|[|]|D]; reflexivity.
    + unfold distance_cost_ieee. rewrite Hlt.
      destruct d as [|[|]|q]; reflexivity.
    + unfold distance_cost_ieee. simpl.
      apply Qle_bool_iff in H0. rewrite H0. reflexivity.
Qed.

(** X7: whatever threshold is configured, the cost of the loop body is
    NaN exactly when the distance is NaN, or the threshold is NaN and the
    distance is not below 0, or the threshold is +infinity and the
    distance is finite and not below 0; in every other case it lies
    between 0 and 1.  (For every rounding that keeps the order and leaves
    0, 1 and a finite threshold alone.) *)
Theorem distance_cost_ieee_nan_or_unit (round : Q -> Q) (D d : double) :
  rounds_to_nearest round ->
  (forall q, D = Finite q -> (round q == q)%Q) ->
  (distance_cost_ieee round D d = NaN <->
   d = NaN \/
   (D = NaN /\ ieee_lt d (Finite 0) = false) \/
   (D = Infinity false /\ exists q, d = Finite q /\ (0 <= q)%Q)) /\
  (distance_cost_ieee round D d <> NaN ->
   in_unit_interval (distance_cost_ieee round D d)).
Proof.
  intros Hround Hrep. split; [apply distance_cost_ieee_nan_iff|].
  intros Hnan.
  destruct D as [|[|]|D].
  - unfold distance_cost_ieee in *.
    destruct d as [|[|]|q]; simpl in *; try congruence; try (split; reflexivity).
    destruct (negb (Qle_bool 0 q)); [split; reflexivity|congruence].
  - unfold distance_cost_ieee in *.
    destruct d as [|[|]|q]; simpl in *; try congruence; try (split; reflexivity).
  - unfold distance_cost_ieee in *.
    destruct d as [|[|]|q]; simpl in *; try congruence; try (split; reflexivity).
    destruct (Qle_bool 0 q); simpl in *; [congruence|split; reflexivity].
  - destruct (Qlt_le_dec 0 D) as [Hpos|Hneg].
    + apply distance_cost_ieee_bounds; auto.
      intros ->. apply Hnan. apply distance_cost_ieee_nan_iff. now left.
    + unfold distance_cost_ieee in *.
      destruct d as [|[|]|q]; simpl in *; try congruence; try (split; reflexivity).
      destruct (Qle_bool D q) eqn:HD; [split; reflexivity|].
      apply Qle_bool_false in HD.
      assert (H0 : Qle_bool 0 q = false) by (apply Qle_bool_false; lra).
      rewrite H0. split; reflexivity.
Qed.

Lemma distance_cost_ieee_nan_or_unit_witness :
  rounds_to_nearest to_grid /\
  (forall q, Finite (1 # 8) = Finite q -> (to_grid q == q)%Q) /\
  (distance_cost_ieee to_grid (Finite (1 # 8)) (Finite (1 # 16)) = NaN <->
   Finite (1 # 16) = NaN \/
   (Finite (1 # 8) = NaN /\ ieee_lt (Finite (1 # 16)) (Finite 0) = false) \/
   (Finite (1 # 8) = Infinity false /\
    exists q, Finite (1 # 16) = Finite q /\ (0 <= q)%Q)) /\
  (distance_cost_ieee to_grid (Finite (1 # 8)) (Finite (1 # 16)) <> NaN ->
   in_unit_interval (distance_cost_ieee to_grid (Finite (1 # 8)) (Finite (1 # 16)))).
Proof.
  assert (Hrep : forall q, Finite (1 # 8) = Finite q -> (to_grid q == q)%Q).
  { intros q Hq. inversion Hq. reflexivity. }
  split; [exact to_grid_rounds_to_nearest|]. split; [exact Hrep|].
  exact (distance_cost_ieee_nan_or_unit to_grid (Finite (1 # 8)) (Finite (1 # 16))
           to_grid_rounds_to_nearest Hrep).
Defined.

(** X17: with a finite threshold that is zero or negative and a distance
    that is not NaN, the mapping is a step: 0 from the threshold on and 1
    below it; the code does not reach its division.  (With a NaN
    distance it does, and the cost is NaN.) *)
Theorem distance_cost_ieee_nonpositive_threshold (round : Q -> Q) (D : Q) (d : double) :
  (D <= 0)%Q ->
  d <> NaN ->
  distance_cost_ieee round (Finite D) d
  = if ieee_ge d (Finite D) then Finite 0 else Finite 1.
Proof.
  intros HD Hnan. unfold distance_cost_ieee.
  destruct d as [|[|]|q]; [congruence|reflexivity|reflexivity|]. simpl.
  destruct (Qle_bool D q) eqn:Hge; [reflexivity|].
  apply Qle_bool_false in Hge.
  assert (H0 : Qle_bool 0 q = false) by (apply Qle_bool_false; lra).
  now rewrite H0.
Qed.

Lemma distance_cost_ieee_nonpositive_threshold_witness :
  (0 <= 0)%Q /\
  Finite (-1 # 2) <> NaN /\
  distance_cost_ieee to_grid (Finite 0) (Finite (-1 # 2))
  = if ieee_ge (Finite (-1 # 2)) (Finite 0) then Finite 0 else Finite 1.
Proof.
  assert (HD : (0 <= 0)%Q) by (intros Hx; discriminate Hx).
  assert (Hnan : Finite (-1 # 2) <> NaN) by discriminate.
  split; [exact HD|]. split; [exact Hnan|].
  exact (distance_cost_ieee_nonpositive_threshold to_grid 0 (Finite (-1 # 2)) HD Hnan).
Defined.

(** * [computeCosts] and the allocation of the cost vector *)

(** When the vector is granted, the call goes on as [computeCosts]. *)
Lemma computeCosts_on_heap_granted `{Collaborators} (heap_grants : Z -> bool)
    (parameters : MatrixXd)
    (start_timestep num_timesteps iteration_number rollout_number : Z)
    (costs : VectorXd) (validity : bool) (w : World) :
  vector_granted heap_grants costs num_timesteps = true ->
  computeCosts_on_heap heap_grants parameters start_timestep num_timesteps
    iteration_number rollout_number costs validity w
  = computeCosts parameters start_timestep num_timesteps iteration_number
      rollout_number costs validity w.
Proof.
  intros Hgranted.
  unfold computeCosts_on_heap, computeCosts, bind, this, assign_Zero.
  rewrite Hgranted. reflexivity.
Qed.

(** When it is refused, and the object holds a snapshot, the call ends in
    [std::bad_alloc] at line 130: nothing has been checked, logged or
    written. *)
Lemma computeCosts_on_heap_refused `{Collaborators} (heap_grants : Z -> bool)
    (parameters : MatrixXd)
    (start_timestep num_timesteps iteration_number rollout_number : Z)
    (costs : VectorXd) (validity : bool) (w : World) :
  robot_state_ (self w) <> None ->
  vector_granted heap_grants costs num_timesteps = false ->
  computeCosts_on_heap heap_grants parameters start_timestep num_timesteps
    iteration_number rollout_number costs validity w
  = Throws std_bad_alloc w.
Proof.
  intros Hstate Hrefused.
  unfold computeCosts_on_heap, bind, this, assign_Zero.
  destruct (robot_state_ (self w)) as [snapshot|]; [|congruence].
  rewrite Hrefused. reflexivity.
Qed.

(** Without a snapshot nothing is allocated. *)
Lemma computeCosts_on_heap_without_snapshot `{Collaborators} (heap_grants : Z -> bool)
    (parameters : MatrixXd)
    (start_timestep num_timesteps iteration_number rollout_number : Z)
    (costs : VectorXd) (validity : bool) (w : World) :
  robot_state_ (self w) = None ->
  computeCosts_on_heap heap_grants parameters start_timestep num_timesteps
    iteration_number rollout_number costs validity w
  = Returns (false, costs, validity)
      (logged w (name_ (self w) +:+ " Robot State has not been updated")).
Proof.
  intros Hnone. unfold computeCosts_on_heap, bind, this. simpl.
  rewrite Hnone. reflexivity.
Qed.

(** C7, as the code has it: on an object that holds a robot model, when
    the vector of [num_timesteps] costs is granted and the matrix has
    fewer columns than [start_timestep + num_timesteps] as the code
    computes it (on [std::size_t], modulo 2^64), [computeCosts] returns
    false; it has then asked no distance (the trace grows by one console
    line and nothing else), has left the object and [validity] as they
    were, and [costs] is either untouched or all zeros. *)
Theorem computeCosts_on_heap_rejects_narrow_matrix `{Collaborators}
    (heap_grants : Z -> bool) (parameters : MatrixXd)
    (start_timestep num_timesteps iteration_number rollout_number : Z)
    (costs : VectorXd) (validity : bool) (w : World) :
  robot_model_ptr_ (self w) <> None ->
  vector_granted heap_grants costs num_timesteps = true ->
  cols parameters < size_add start_timestep num_timesteps ->
  exists (costs' : VectorXd) (msg : string),
    computeCosts_on_heap heap_grants parameters start_timestep num_timesteps
      iteration_number rollout_number costs validity w
    = Returns (false, costs', validity) (logged w msg) /\
    (costs' = costs \/ costs' = Zero num_timesteps).
Proof.
  intros Hmodel Hgranted Hcols.
  rewrite (computeCosts_on_heap_granted _ _ _ _ _ _ _ _ _ Hgranted).
  rewrite computeCosts_cases.
  destruct (robot_state_ (self w)) as [state|].
  - destruct (robot_model_ptr_ (self w)) as [model|]; [|congruence].
    cbv zeta. apply Z.ltb_lt in Hcols. rewrite Hcols.
    do 2 eexists. split; [reflexivity|now right].
  - do 2 eexists. split; [reflexivity|now left].
Qed.

Lemma computeCosts_on_heap_rejects_narrow_matrix_witness :
  robot_model_ptr_ (self Rail.armed) <> None /\
  vector_granted Rail.heap [] 4 = true /\
  cols Rail.short_rollout < size_add 3 4 /\
  exists (costs' : VectorXd) (msg : string),
    computeCosts_on_heap Rail.heap Rail.short_rollout 3 4 0 0 [] false Rail.armed
    = Returns (false, costs', false) (logged Rail.armed msg) /\
    (costs' = [] \/ costs' = Zero 4).
Proof.
  assert (Hmodel : robot_model_ptr_ (self Rail.armed) <> None) by discriminate.
  assert (Hgranted : vector_granted Rail.heap [] 4 = true) by reflexivity.
  assert (Hcols : cols Rail.short_rollout < size_add 3 4) by reflexivity.
  split; [exact Hmodel|]. split; [exact Hgranted|]. split; [exact Hcols|].
  exact (computeCosts_on_heap_rejects_narrow_matrix Rail.heap Rail.short_rollout
           3 4 0 0 [] false Rail.armed Hmodel Hgranted Hcols).
Defined.

(** C7, as stated, fails, in three ways, each with a matrix of two
    columns that is narrower than the range.  The sum wraps around:
    [start_timestep = 2^64 - 1] and [num_timesteps = 2] make it 1, the
    check passes and the call returns true.  The vector is refused:
    [num_timesteps = 2^60] is more than the heap gives, and line 130,
    which comes before the check, ends the call in [std::bad_alloc].  No
    robot model is held: after a [setMotionPlanRequest] on an object that
    was never initialised, line 131, which also comes before the check,
    calls through the null model pointer. *)
Lemma computeCosts_on_heap_narrow_matrix_not_rejected :
  (cols Rail.short_rollout < (2 ^ 64 - 1) + 2 /\
   computeCosts_on_heap Rail.heap Rail.short_rollout (2 ^ 64 - 1) 2 0 0 [] false
     Rail.armed
   = Returns (true, [0%Q; 0%Q], true) Rail.armed) /\
  (cols Rail.short_rollout < 0 + 2 ^ 60 /\
   computeCosts_on_heap Rail.heap Rail.short_rollout 0 (2 ^ 60) 0 0 [] false
     Rail.armed
   = Throws std_bad_alloc Rail.armed) /\
  (exists w,
     setMotionPlanRequest (Some (Rail.wall 1)) (Rail.request (Some [0%Q]))
       Rail.stomp_config FAILURE Rail.fresh
     = Returns (true, SUCCESS) w /\
     cols Rail.short_rollout < 0 + 3 /\
     computeCosts_on_heap Rail.heap Rail.short_rollout 0 3 0 0 [] false w
     = Undefined NullDereference).
Proof.
  split; [|split].
  - split; [reflexivity|]. vm_compute. reflexivity.
  - split; [reflexivity|]. vm_compute. reflexivity.
  - eexists. split; [vm_compute; reflexivity|]. split; [reflexivity|].
    vm_compute. reflexivity.
Qed.

(** X11: a range that wraps around.  When [start_timestep + num_timesteps]
    reaches 2^64, the check compares the columns with the sum modulo
    2^64; if the vector of [num_timesteps] costs is granted, a matrix
    that passes the check is not scored at all: [computeCosts] returns
    true with [num_timesteps] zeros, asks no distance and leaves the
    object as it was. *)
Theorem computeCosts_on_heap_wrapped_range `{Collaborators}
    (heap_grants : Z -> bool) (parameters : MatrixXd)
    (start_timestep num_timesteps iteration_number rollout_number : Z)
    (costs : VectorXd) (validity : bool) (w : World) :
  robot_state_ (self w) <> None ->
  robot_model_ptr_ (self w) <> None ->
  is_size_t start_timestep ->
  is_size_t num_timesteps ->
  vector_granted heap_grants costs num_timesteps = true ->
  SIZE_MODULUS <= start_timestep + num_timesteps ->
  start_timestep + num_timesteps - SIZE_MODULUS <= cols parameters ->
  computeCosts_on_heap heap_grants parameters start_timestep num_timesteps
    iteration_number rollout_number costs validity w
  = Returns (true, Zero num_timesteps, true) w.
Proof.
  intros Hstate Hmodel [Hstart Hstart'] [Hnum Hnum'] Hgranted Hwrap Hcols.
  rewrite (computeCosts_on_heap_granted _ _ _ _ _ _ _ _ _ Hgranted).
  rewrite computeCosts_cases.
  destruct (robot_state_ (self w)) as [snapshot|]; [|congruence].
  destruct (robot_model_ptr_ (self w)) as [model|]; [|congruence].
  cbv zeta.
  assert (Hsum : size_add start_timestep num_timesteps
                 = start_timestep + num_timesteps - SIZE_MODULUS).
  { unfold size_add.
    rewrite <- (Z.mod_small (start_timestep + num_timesteps - SIZE_MODULUS) SIZE_MODULUS)
      by lia.
    replace (start_timestep + num_timesteps)
      with (start_timestep + num_timesteps - SIZE_MODULUS + 1 * SIZE_MODULUS) at 1 by lia.
    apply Z.mod_add. unfold SIZE_MODULUS, SIZE_BITS. lia. }
  rewrite Hsum.
  destruct (cols parameters <? _) eqn:Hnarrow; [lia|].
  replace (Z.to_nat (start_timestep + num_timesteps - SIZE_MODULUS - start_timestep))
    with O by lia.
  simpl.
  destruct (start_timestep <? _) eqn:Hcond; [lia|]. reflexivity.
Qed.

Lemma computeCosts_on_heap_wrapped_range_witness :
  robot_state_ (self Rail.armed) <> None /\
  robot_model_ptr_ (self Rail.armed) <> None /\
  is_size_t (2 ^ 64 - 3) /\
  is_size_t 5 /\
  vector_granted Rail.heap [] 5 = true /\
  SIZE_MODULUS <= 2 ^ 64 - 3 + 5 /\
  2 ^ 64 - 3 + 5 - SIZE_MODULUS <= cols Rail.rollout /\
  computeCosts_on_heap Rail.heap Rail.rollout (2 ^ 64 - 3) 5 0 0 [] false Rail.armed
  = Returns (true, Zero 5, true) Rail.armed.
Proof.
  assert (Hstate : robot_state_ (self Rail.armed) <> None) by discriminate.
  assert (Hmodel : robot_model_ptr_ (self Rail.armed) <> None) by discriminate.
  assert (Hstart : is_size_t (2 ^ 64 - 3))
    by (split; [intros Hx; discriminate Hx | reflexivity]).
  assert (Hnum : is_size_t 5) by (split; [lia | reflexivity]).
  assert (Hgranted : vector_granted Rail.heap [] 5 = true) by reflexivity.
  assert (Hwrap : SIZE_MODULUS <= 2 ^ 64 - 3 + 5) by (intros Hx; discriminate Hx).
  assert (Hcols : 2 ^ 64 - 3 + 5 - SIZE_MODULUS <= cols Rail.rollout)
    by (intros Hx; discriminate Hx).
  repeat (split; [assumption|]).
  exact (computeCosts_on_heap_wrapped_range Rail.heap Rail.rollout (2 ^ 64 - 3) 5 0 0
           [] false Rail.armed Hstate Hmodel Hstart Hnum Hgranted Hwrap Hcols).
Defined.
